(** * Labyrinth: a shallow embedding of [rl_envs/envs/labyrinth/labyrinth.py]

    The class [Labyrinth] is an episodic grid world.  Its methods are
    embedded as computations of a state-and-exception monad over the
    record of the object's attributes; the modules the file imports but
    that are not part of it ([constants], [player], [maze]) and the
    external generators ([random], [numpy.random]) enter through one
    interface, [Imports]. *)

From stdpp Require Import gmap strings list.
From Stdlib Require Import ZArith Floats.

Open Scope Z_scope.
Set Warnings "-inexact-float".

(** ** Python values *)

(** Numbers as the reward table and the keyword arguments hold them: a
    Python [int] or a Python [float] (binary64). They are stored and
    handed back, never computed with. *)
Inductive Number :=
  | PyInt (n : Z)
  | PyFloat (x : float).

(** The exceptions the modelled code can raise. *)
Inductive PyError :=
  | AttributeError
  | KeyError
  | IndexError
  | ValueError
  | MemoryError
  | GenerationError.

(** What a call gives back: a value, or a raised exception. *)
Inductive Outcome (A : Type) :=
  | Return (a : A)
  | Raise (e : PyError).
Arguments Return {A} a.
Arguments Raise {A} e.

(** ** The monad of methods

    A method reads and mutates the object [S] and either returns or
    raises.  A mutation made before an exception is raised stays made,
    as in Python. *)
Definition M (S A : Type) : Type := S → Outcome A * S.

Global Instance M_ret {S} : MRet (M S) := λ A a s, (Return a, s).
Global Instance M_bind {S} : MBind (M S) := λ A B f m s,
  match m s with
  | (Return a, s') => f a s'
  | (Raise e, s') => (Raise e, s')
  end.
Global Instance M_throw {S} : MThrow PyError (M S) := λ A e s, (Raise e, s).

Definition get {S} : M S S := λ s, (Return s, s).
Definition gets {S A} (f : S → A) : M S A := λ s, (Return (f s), s).
Definition modify {S} (f : S → S) : M S () := λ s, (Return (), f s).

(** Lift a partial read: [None] raises [e]. *)
Definition or_raise {S A} (e : PyError) (o : option A) : M S A :=
  match o with
  | Some a => mret a
  | None => mthrow e
  end.

(** ** Grids: two-dimensional numpy arrays *)

Abbreviation Position := (Z * Z)%type.
Abbreviation Grid := (list (list Z)).

(** numpy's index rule along an axis of length [n]: [0 <= i < n] is
    taken as it is, [-n <= i < 0] counts from the end, anything else is
    an [IndexError] (here [None]). *)
Definition np_index (n : nat) (i : Z) : option nat :=
  if bool_decide (0 ≤ i < Z.of_nat n) then Some (Z.to_nat i)
  else if bool_decide (- Z.of_nat n ≤ i < 0) then Some (Z.to_nat (i + Z.of_nat n))
  else None.

(** [g[r, c]] *)
Definition getitem (g : Grid) (p : Position) : option Z :=
  i ← np_index (length g) p.1;
  row ← g !! i;
  j ← np_index (length row) p.2;
  row !! j.

(** [g[r, c] = v], on the array value *)
Definition setitem (g : Grid) (p : Position) (v : Z) : option Grid :=
  i ← np_index (length g) p.1;
  row ← g !! i;
  j ← np_index (length row) p.2;
  Some (<[i := <[j := v]> row]> g).

(** ** The data of the imported modules *)

(** [Action]: the four members the environment steps with
    ([Discrete(4)]: Up, Right, Down, Left). *)
Inductive Action := UP | RIGHT | DOWN | LEFT.

(** What [MazeFactory.create_maze] returns. *)
Record Maze := {
  grid : Grid;
  start_position : Position;
  target_position : Position;
}.

Record Player := { position : Position }.

(** A room type is an enumeration member of the maze module; the
    environment only passes the collection on, so a member is kept by
    its name. *)
Definition RoomType : Type := string.

(** The keyword arguments of [MazeFactory(...)]. *)
Module MazeFactoryArgs.
Record t := {
  rows : Z;
  cols : Z;
  nr_desired_rooms : option Z;
  nr_desired_rooms_range : Z * Z;
  global_room_ratio : option Number;
  global_room_ratio_range : Number * Number;
  access_points_per_room : option Z;
  access_points_per_room_range : Z * Z;
  room_types : option (list RoomType);
  room_ratio : option Number;
  room_ratio_range : Number * Number;
  seed : Z;
}.
End MazeFactoryArgs.

(** The arguments of [Labyrinth(...)]. *)
Module LabyrinthArgs.
Record t := {
  rows : Z;
  cols : Z;
  maze_nr_desired_rooms : option Z;
  maze_nr_desired_rooms_range : Z * Z;
  maze_global_room_ratio : option Number;
  maze_global_room_ratio_range : Number * Number;
  room_access_points : option Z;
  room_access_points_range : Z * Z;
  room_types : option (list RoomType);
  room_ratio : option Number;
  room_ratio_range : Number * Number;
  reward_schema : option (gmap string Number);
  seed : option Z;
}.

(** [Labyrinth(rows, cols, reward_schema=..., seed=...)] with every
    other argument at its default. *)
Definition defaults (rows cols : Z) (reward_schema : option (gmap string Number))
    (seed : option Z) : t :=
  {| rows := rows;
     cols := cols;
     maze_nr_desired_rooms := None;
     maze_nr_desired_rooms_range := (1, 8);
     maze_global_room_ratio := None;
     maze_global_room_ratio_range := (PyFloat 0.1, PyFloat 0.8);
     room_access_points := None;
     room_access_points_range := (1, 4);
     room_types := None;
     room_ratio := None;
     room_ratio_range := (PyFloat 0.5, PyFloat 1.5);
     reward_schema := reward_schema;
     seed := seed |}.
End LabyrinthArgs.

(** ** What the file imports

    [labyrinth.py] is the only file at hand.  The cell codes and the
    player's unit moves, the two random generators and the maze factory
    are taken through this interface; every statement below holds for
    each way of filling it. *)
Class Imports := {
  (** [from .constants import WALL, PATH, TARGET, START, PLAYER] *)
  WALL : Z;
  PATH : Z;
  TARGET : Z;
  START : Z;
  PLAYER : Z;
  (** [from .player import Player]: the object [Player()] builds, and
      the unit step of each action. *)
  Player_new : Player;
  action_delta : Action → Z * Z;
  (** [import random]: [random.Random(seed)] and [randint(a, b)] on a
      generator. The module's own functions use one shared generator. *)
  PyRandom : Type;
  Random : Z → PyRandom;
  randint : Z → Z → M PyRandom Z;
  (** [np.random.RandomState(seed)] (it refuses some seeds) and its
      [randint(low, high)]. *)
  RandomState : Type;
  RandomState_new : Z → Outcome RandomState;
  np_randint : Z → Z → M RandomState Z;
  (** numpy's allocator, asked for an array of [rows] by [cols] bytes
      with neither negative: [None] when the array can be had, else the
      exception raised (a size beyond the index type, or more than the
      memory holds). *)
  np_alloc : Z → Z → option PyError;
  (** [from .maze import MazeFactory]: the constructor and
      [create_maze()], which advances the factory's own stream and may
      fail. *)
  MazeFactory : Type;
  MazeFactory_new : MazeFactoryArgs.t → Outcome MazeFactory;
  create_maze : M MazeFactory Maze;
}.

(** [np.ones((rows, cols), dtype=np.uint8) * v]: a negative dimension is
    a [ValueError]; a size the allocator refuses raises what the
    allocator raises.  The cell codes fit the element type (the spec
    gives them as the integers of [0,4]), so the product is [v]
    itself. *)
Definition np_ones_times `{Imports} (rows cols v : Z) : Outcome Grid :=
  if bool_decide (0 ≤ rows ∧ 0 ≤ cols) then
    match np_alloc rows cols with
    | None => Return (replicate (Z.to_nat rows) (replicate (Z.to_nat cols) (1 * v)))
    | Some err => Raise err
    end
  else Raise ValueError.

(** What [step] returns:
    [(observation, reward, done, truncated, info)]. *)
Record StepResult := {
  observation : Grid;
  reward : Number;
  done : bool;
  truncated : bool;
  info : gmap string string;
}.

(** The table [__init__] installs when no reward schema is given. *)
Definition default_reward_schema : gmap string Number :=
  {[ "neutral_reward" := PyFloat (-0.01);
     "wall_collision_reward" := PyInt (-1);
     "target_reached_reward" := PyInt 10 ]}.

(** [not reward_schema]: true of [None] and of an empty mapping. *)
Definition falsy (reward_schema : option (gmap string Number)) : bool :=
  match reward_schema with
  | None => true
  | Some d => bool_decide (size d = 0%nat)
  end.

Section Labyrinth.
Context `{Imports}.

(** Modelled from the spec: [Player.potential_next_position] lives in
    player.py, which is not at hand; by the spec it is the current
    position plus a fixed unit delta per action, with no bounds or
    wall check and no side effect. *)
Definition potential_next_position (pl : Player) (action : Action) : Position :=
  ((position pl).1 + (action_delta action).1,
   (position pl).2 + (action_delta action).2).

(** The attributes of a [Labyrinth] object.  [None] in [reward_schema]
    and in [maze] stands for an attribute that was never assigned:
    reading it is an [AttributeError].  The spaces of the gym interface
    and the display are not read by any method modelled here. *)
Record Labyrinth := {
  rows : Z;
  cols : Z;
  state : Grid;
  seed : option Z;
  py_random : PyRandom;
  np_random : RandomState;
  reward_schema : option (gmap string Number);
  maze_factory : MazeFactory;
  player : Player;
  maze : option Maze;
}.

Definition set_state (v : Grid) (e : Labyrinth) : Labyrinth :=
  {| rows := rows e; cols := cols e; state := v; seed := seed e;
     py_random := py_random e; np_random := np_random e;
     reward_schema := reward_schema e; maze_factory := maze_factory e;
     player := player e; maze := maze e |}.

Definition set_seed (v : option Z) (e : Labyrinth) : Labyrinth :=
  {| rows := rows e; cols := cols e; state := state e; seed := v;
     py_random := py_random e; np_random := np_random e;
     reward_schema := reward_schema e; maze_factory := maze_factory e;
     player := player e; maze := maze e |}.

Definition set_py_random (v : PyRandom) (e : Labyrinth) : Labyrinth :=
  {| rows := rows e; cols := cols e; state := state e; seed := seed e;
     py_random := v; np_random := np_random e;
     reward_schema := reward_schema e; maze_factory := maze_factory e;
     player := player e; maze := maze e |}.

Definition set_np_random (v : RandomState) (e : Labyrinth) : Labyrinth :=
  {| rows := rows e; cols := cols e; state := state e; seed := seed e;
     py_random := py_random e; np_random := v;
     reward_schema := reward_schema e; maze_factory := maze_factory e;
     player := player e; maze := maze e |}.

Definition set_maze_factory (v : MazeFactory) (e : Labyrinth) : Labyrinth :=
  {| rows := rows e; cols := cols e; state := state e; seed := seed e;
     py_random := py_random e; np_random := np_random e;
     reward_schema := reward_schema e; maze_factory := v;
     player := player e; maze := maze e |}.

(** [self.player.position = v] *)
Definition set_player_position (v : Position) (e : Labyrinth) : Labyrinth :=
  {| rows := rows e; cols := cols e; state := state e; seed := seed e;
     py_random := py_random e; np_random := np_random e;
     reward_schema := reward_schema e; maze_factory := maze_factory e;
     player := {| position := v |}; maze := maze e |}.

Definition set_maze (v : Maze) (e : Labyrinth) : Labyrinth :=
  {| rows := rows e; cols := cols e; state := state e; seed := seed e;
     py_random := py_random e; np_random := np_random e;
     reward_schema := reward_schema e; maze_factory := maze_factory e;
     player := player e; maze := Some v |}.

(** Run a computation of a component on that component of the object. *)
Definition on {A C} (proj : Labyrinth → C) (put : C → Labyrinth → Labyrinth)
    (c : M C A) : M Labyrinth A := λ e,
  let '(r, c') := c (proj e) in (r, put c' e).

(** Reading an attribute that may be unset. *)
Definition attr {A} (proj : Labyrinth → option A) : M Labyrinth A :=
  gets proj ≫= or_raise AttributeError.

(** [self.state[p] = v] *)
Definition state_setitem (p : Position) (v : Z) : M Labyrinth () :=
  s ← gets state;
  s' ← or_raise IndexError (setitem s p v);
  modify (set_state s').

Definition build_state_matrix : M Labyrinth Grid :=
  m ← attr maze;
  modify (set_state (grid m));;
  m ← attr maze;
  state_setitem (start_position m) START;;
  m ← attr maze;
  state_setitem (target_position m) TARGET;;
  pl ← gets player;
  state_setitem (position pl) PLAYER;;
  gets state.

Definition is_valid_move (pl : Player) (action : Action) : M Labyrinth bool :=
  let potential_position := potential_next_position pl action in
  rows ← gets rows;
  cols ← gets cols;
  let is_inside_bounds :=
    bool_decide (0 ≤ potential_position.1 < rows) &&
    bool_decide (0 ≤ potential_position.2 < cols) in
  if negb is_inside_bounds then mret false
  else
    m ← attr maze;
    cell ← or_raise IndexError (getitem (grid m) potential_position);
    if bool_decide (cell = WALL) then mret false
    else mret true.

Definition agent_move (action : Action) : M Labyrinth () :=
  pl ← gets player;
  let new_position := potential_next_position pl action in
  modify (set_player_position new_position).

(** [self.reward_schema[key]] *)
Definition reward_of (key : string) : M Labyrinth Number :=
  rs ← attr reward_schema;
  or_raise KeyError (rs !! key).

Definition step (action : Action) : M Labyrinth StepResult :=
  reward ← reward_of "neutral_reward";
  let done := false in
  let truncated := false in
  pl ← gets player;
  valid ← is_valid_move pl action;
  if negb valid then
    reward ← reward_of "wall_collision_reward";
    s ← gets state;
    mret {| observation := s; reward := reward; done := done;
            truncated := truncated; info := {[ "info" := "Invalid move!" ]} |}
  else
    agent_move action;;
    pl ← gets player;
    m ← attr maze;
    if bool_decide (position pl = target_position m) then
      reward ← reward_of "target_reached_reward";
      let done := true in
      s ← gets state;
      mret {| observation := s; reward := reward; done := done;
              truncated := truncated; info := {[ "info" := "Reached the target!" ]} |}
    else
      s ← build_state_matrix;
      modify (set_state s);;
      s ← gets state;
      mret {| observation := s; reward := reward; done := done;
              truncated := truncated; info := ∅ |}.

Definition setup_labyrinth : M Labyrinth () :=
  maze_seed ← on np_random set_np_random (np_randint 0 1000000);
  m ← on maze_factory set_maze_factory create_maze;
  modify (set_maze m);;
  m ← attr maze;
  modify (set_player_position (start_position m));;
  build_state_matrix;;
  mret ().

(** [reset(seed=None)]: the method has no [return]. *)
Definition reset (seed_arg : option Z) : M Labyrinth () :=
  s ← gets seed;
  match s with
  | None =>
      v ← on py_random set_py_random (randint 0 1000000);
      modify (set_seed (Some v))
  | Some n => modify (set_seed (Some (n + 1)))
  end;;
  setup_labyrinth.

(** Lift a call that only returns or raises. *)
Definition call {S A} (o : Outcome A) : M S A := λ s, (o, s).

(** [Labyrinth(...)]: the state threaded here is the shared generator
    of the [random] module, the one thing outside the arguments the
    constructor reads.  An exception leaves no object behind. *)
Definition __init__ (a : LabyrinthArgs.t) : M PyRandom Labyrinth :=
  let rows := LabyrinthArgs.rows a in
  let cols := LabyrinthArgs.cols a in
  state ← call (np_ones_times rows cols WALL);
  seed ← match LabyrinthArgs.seed a with
         | None => randint 0 1000000
         | Some s => mret s
         end;
  let py_random := Random seed in
  np_random ← call (RandomState_new seed);
  let reward_schema :=
    if falsy (LabyrinthArgs.reward_schema a)
    then Some default_reward_schema else None in
  maze_factory ← call (MazeFactory_new
    {| MazeFactoryArgs.rows := rows;
       MazeFactoryArgs.cols := cols;
       MazeFactoryArgs.nr_desired_rooms := LabyrinthArgs.maze_nr_desired_rooms a;
       MazeFactoryArgs.nr_desired_rooms_range := LabyrinthArgs.maze_nr_desired_rooms_range a;
       MazeFactoryArgs.global_room_ratio := LabyrinthArgs.maze_global_room_ratio a;
       MazeFactoryArgs.global_room_ratio_range := LabyrinthArgs.maze_global_room_ratio_range a;
       MazeFactoryArgs.access_points_per_room := LabyrinthArgs.room_access_points a;
       MazeFactoryArgs.access_points_per_room_range := LabyrinthArgs.room_access_points_range a;
       MazeFactoryArgs.room_types := LabyrinthArgs.room_types a;
       MazeFactoryArgs.room_ratio := LabyrinthArgs.room_ratio a;
       MazeFactoryArgs.room_ratio_range := LabyrinthArgs.room_ratio_range a;
       MazeFactoryArgs.seed := seed |});
  let self :=
    {| rows := rows; cols := cols; state := state; seed := Some seed;
       py_random := py_random; np_random := np_random;
       reward_schema := reward_schema; maze_factory := maze_factory;
       player := Player_new; maze := None |} in
  call (match setup_labyrinth self with
        | (Return _, self') => Return self'
        | (Raise e, _) => Raise e
        end).

(** A run of [step] calls; a caller may go on after an exception, so
    the object is followed whatever each call gives back. *)
Definition steps (actions : list Action) (e : Labyrinth) : Labyrinth :=
  foldl (λ e a, (step a e).2) e actions.

(** The bounds test of [is_valid_move]. *)
Definition inside_bounds (e : Labyrinth) (p : Position) : bool :=
  bool_decide (0 ≤ p.1 < rows e) && bool_decide (0 ≤ p.2 < cols e).

(** A cell the player may stand on: inside the bounds, and the maze
    grid holds there a code other than [WALL]. *)
Definition free_cell (e : Labyrinth) (p : Position) : bool :=
  inside_bounds e p &&
  match maze e with
  | Some m =>
      match getitem (grid m) p with
      | Some cell => negb (bool_decide (cell = WALL))
      | None => false
      end
  | None => false
  end.

End Labyrinth.

(** ** One way of filling the imports, for closed examples

    The cell codes in the order the spec lists them, the usual unit
    moves on (row, column), two counters for generators (each draw
    hands out the counter, clamped to the range, and counts on; the
    numpy one refuses a negative seed), an allocator that never
    refuses, and a
    factory that hands out a 3 x 3 corridor whose ends depend on the
    parity of the seed it was built with. *)

Definition clamp (low high x : Z) : Z := Z.max low (Z.min high x).

Definition corridor_grid : Grid :=
  [ [1; 1; 0];
    [0; 1; 0];
    [0; 1; 1] ].

Definition corridor (seed : Z) : Maze :=
  if Z.even seed
  then {| grid := corridor_grid; start_position := (0, 0); target_position := (1, 1) |}
  else {| grid := corridor_grid; start_position := (2, 2); target_position := (1, 1) |}.

Definition corridor_imports : Imports := {|
  WALL := 0;
  PATH := 1;
  TARGET := 2;
  START := 3;
  PLAYER := 4;
  Player_new := {| position := (0, 0) |};
  action_delta := λ a,
    match a with
    | UP => (-1, 0)
    | RIGHT => (0, 1)
    | DOWN => (1, 0)
    | LEFT => (0, -1)
    end;
  PyRandom := Z;
  Random := λ seed, seed;
  randint := λ a b g, (Return (clamp a b g), g + 1);
  RandomState := Z;
  RandomState_new := λ seed,
    if 0 <=? seed then Return seed else Raise ValueError;
  np_randint := λ low high g, (Return (clamp low (high - 1) g), g + 1);
  np_alloc := λ _ _, None;
  MazeFactory := Z * nat;
  MazeFactory_new := λ a, Return (MazeFactoryArgs.seed a, 0%nat);
  create_maze := λ f, (Return (corridor f.1), (f.1, S f.2));
|}.

Section Corridor.
#[local] Existing Instance corridor_imports.

(** [{"neutral_reward": 0, "wall_collision_reward": -5,
      "target_reached_reward": 100}] *)
Definition custom_schema : gmap string Number :=
  {[ "neutral_reward" := PyInt 0;
     "wall_collision_reward" := PyInt (-5);
     "target_reached_reward" := PyInt 100 ]}.

(** [Labyrinth(3, 3, seed=42)], built while the shared generator of
    [random] is in state 7. *)
Definition env42 : Outcome Labyrinth * Z :=
  __init__ (LabyrinthArgs.defaults 3 3 None (Some 42)) 7.

(** The object [Labyrinth(3, 3, reward_schema=..., seed=42)] as the
    constructor leaves it, written out; [reward_schema] is the attribute
    it ends with. *)
Definition corridor_env (reward_schema : option (gmap string Number)) : Labyrinth :=
  {| rows := 3; cols := 3;
     state := [ [4; 1; 0]; [0; 2; 0]; [0; 1; 1] ];
     seed := Some 42;
     py_random := 42;
     np_random := 43;
     reward_schema := reward_schema;
     maze_factory := (42, 1%nat);
     player := {| position := (0, 0) |};
     maze := Some (corridor 42) |}.

(** [Labyrinth(3, 3, seed=42)] *)
Definition env0 : Labyrinth := corridor_env (Some default_reward_schema).

(** [env0] after [step(Action.RIGHT)]: the player stands at (0, 1),
    right above the target. *)
Definition env1 : Labyrinth := (step RIGHT env0).2.

(** [env1] after [step(Action.DOWN)]: the player stands on the target. *)
Definition env2 : Labyrinth := (step DOWN env1).2.

End Corridor.

(** ** The overlay, in the words of the spec

    A copy of the structural grid with START written first, TARGET
    second and PLAYER last. *)
Definition overlay `{Imports} (m : Maze) (pos : Position) : option Grid :=
  g1 ← setitem (grid m) (start_position m) START;
  g2 ← setitem g1 (target_position m) TARGET;
  setitem g2 pos PLAYER.

(** Unfolds the monad's plumbing down to the pairs it computes. *)
Ltac run :=
  cbv [mbind M_bind mret M_ret mthrow M_throw get gets modify or_raise
       attr reward_of call on state_setitem agent_move] in *;
  cbn [fst snd negb rows cols state seed py_random np_random reward_schema
       maze_factory player maze position set_state set_seed set_py_random
       set_np_random set_maze_factory set_player_position set_maze] in *.

(** Splits on the first array write the goal waits for. *)
Ltac case_setitem :=
  match goal with
  | |- context [setitem ?g ?p ?v] => destruct (setitem g p v)
  end.

(** Rewrites with a known read and recomputes. *)
Ltac know E := run; repeat (rewrite E; run).

(** ** Cells and shapes *)

(** The row and column a position denotes in [g], after numpy's index
    rule; [None] when the position is no cell of [g].  Two positions
    are the same cell when they denote the same row and column. *)
Definition cell_of (g : Grid) (p : Position) : option (nat * nat) :=
  i ← np_index (length g) p.1;
  row ← g !! i;
  j ← np_index (length row) p.2;
  Some (i, j).

(** The lengths of the rows: what [g.shape] tells of an array. *)
Definition shape (g : Grid) : list nat := length <$> g.

(** [g.shape == (rows, cols)] *)
Definition has_shape (rows cols : Z) (g : Grid) : Prop :=
  0 ≤ rows ∧ 0 ≤ cols ∧ shape g = replicate (Z.to_nat rows) (Z.to_nat cols).

(** ** The interactive loop

    [render] reads the pygame event queue.  The events it tells apart
    are kept, with the keys it tells apart; what the queue held at the
    call is an argument.  Drawing and waiting act on the display only
    and are left out. *)
Module Pygame.
Inductive Key := K_ESCAPE | K_UP | K_RIGHT | K_DOWN | K_LEFT | K_OTHER.
Inductive Event := QUIT | KEYDOWN (key : Key) | OTHER.

(** The chain of [if event.key == ...: ... elif ...] in [render]. *)
Definition key_action (key : Key) : option Action :=
  match key with
  | K_UP => Some UP
  | K_RIGHT => Some RIGHT
  | K_DOWN => Some DOWN
  | K_LEFT => Some LEFT
  | K_ESCAPE | K_OTHER => None
  end.
End Pygame.

(** How a call that may leave through [quit()] ends. *)
Inductive Ended (A : Type) :=
  | Completed (a : A)
  | SystemExit
  | Raised (e : PyError).
Arguments Completed {A} a.
Arguments SystemExit {A}.
Arguments Raised {A} e.

(** What [render] returns:
    [(self.state, reward, done, {}, info, key_press)]. *)
Module Rendered.
Record t := {
  state : Grid;
  reward : option Number;
  done : option bool;
  fourth : gmap string string;
  info : option (gmap string string);
  key_press : bool;
}.
End Rendered.

(** The local variables [reward, done, info] of [render]: all [None],
    or all set by the last [step]. *)
Abbreviation Last := (option (Number * bool * gmap string string)).

Section More.
Context `{Imports}.

(** The body of [for event in pygame.event.get()]. *)
Fixpoint handle_events (events : list Pygame.Event) (last : Last) (key_press : bool)
    (e : Labyrinth) : Ended (Last * bool) * Labyrinth :=
  match events with
  | [] => (Completed (last, key_press), e)
  | Pygame.QUIT :: _ => (SystemExit, e)
  | Pygame.OTHER :: events => handle_events events last key_press e
  | Pygame.KEYDOWN key :: events =>
      match key with
      | Pygame.K_ESCAPE => (SystemExit, e)
      | _ =>
          match Pygame.key_action key with
          | None => handle_events events last true e
          | Some action =>
              match step action e with
              | (Return r, e') =>
                  handle_events events (Some (reward r, done r, info r)) true e'
              | (Raise err, e') => (Raised err, e')
              end
          end
      end
  end.

(** [render(mode, sleep_time)], with the event queue [events]. *)
Definition render (mode : option string) (events : list Pygame.Event)
    (e : Labyrinth) : Ended Rendered.t * Labyrinth :=
  if bool_decide (mode = Some "human") then
    match handle_events events None false e with
    | (Completed (last, key_press), e') =>
        (Completed {| Rendered.state := state e';
                      Rendered.reward := (λ l, l.1.1) <$> last;
                      Rendered.done := (λ l, l.1.2) <$> last;
                      Rendered.fourth := ∅;
                      Rendered.info := (λ l, l.2) <$> last;
                      Rendered.key_press := key_press |}, e')
    | (SystemExit, e') => (SystemExit, e')
    | (Raised err, e') => (Raised err, e')
    end
  else
    (Completed {| Rendered.state := state e;
                  Rendered.reward := None;
                  Rendered.done := None;
                  Rendered.fourth := ∅;
                  Rendered.info := None;
                  Rendered.key_press := false |}, e).

(** The actions the arrow keys among [events] ask for, in order. *)
Definition arrow_actions (events : list Pygame.Event) : list Action :=
  omap (λ ev, match ev with
              | Pygame.KEYDOWN key => Pygame.key_action key
              | _ => None
              end) events.

(** A run of [reset()] calls, followed whatever each gives back. *)
Definition resets (n : nat) (e : Labyrinth) : Labyrinth :=
  Nat.iter n (λ e, (reset None e).2) e.

End More.

(** ** A factory that runs dry

    As the corridor's imports, with a factory that fails from its
    second maze on. *)
Definition one_maze_imports : Imports := {|
  WALL := 0;
  PATH := 1;
  TARGET := 2;
  START := 3;
  PLAYER := 4;
  Player_new := {| position := (0, 0) |};
  action_delta := λ a,
    match a with
    | UP => (-1, 0)
    | RIGHT => (0, 1)
    | DOWN => (1, 0)
    | LEFT => (0, -1)
    end;
  PyRandom := Z;
  Random := λ seed, seed;
  randint := λ a b g, (Return (clamp a b g), g + 1);
  RandomState := Z;
  RandomState_new := λ seed,
    if 0 <=? seed then Return seed else Raise ValueError;
  np_randint := λ low high g, (Return (clamp low (high - 1) g), g + 1);
  np_alloc := λ _ _, None;
  MazeFactory := Z * nat;
  MazeFactory_new := λ a, Return (MazeFactoryArgs.seed a, 0%nat);
  create_maze := λ f,
    match f.2 with
    | O => (Return (corridor f.1), (f.1, 1%nat))
    | S _ => (Raise GenerationError, f)
    end;
|}.

Section OneMaze.
#[local] Existing Instance one_maze_imports.

(** [Labyrinth(3, 3, seed=42)] over that factory, as the constructor
    leaves it. *)
Definition env_dry : Labyrinth :=
  {| rows := 3; cols := 3;
     state := [ [4; 1; 0]; [0; 2; 0]; [0; 1; 1] ];
     seed := Some 42;
     py_random := 42;
     np_random := 43;
     reward_schema := Some default_reward_schema;
     maze_factory := (42, 1%nat);
     player := {| position := (0, 0) |};
     maze := Some (corridor 42) |}.

End OneMaze.

Section CorridorMore.
#[local] Existing Instance corridor_imports.

(** The corridor's object with a maze grid of one row only, against
    [rows = 3]. *)
Definition env_short : Labyrinth :=
  {| rows := 3; cols := 3;
     state := [ [4; 1; 0] ];
     seed := Some 42;
     py_random := 42;
     np_random := 43;
     reward_schema := Some default_reward_schema;
     maze_factory := (42, 1%nat);
     player := {| position := (0, 1) |};
     maze := Some {| grid := [ [1; 1; 0] ];
                     start_position := (0, 0);
                     target_position := (0, 1) |} |}.

(** [env1] with a reward table that has lost its
    ["target_reached_reward"] entry. *)
Definition env1_no_target_key : Labyrinth :=
  {| rows := 3; cols := 3;
     state := state env1;
     seed := Some 42;
     py_random := 42;
     np_random := 43;
     reward_schema := Some (delete "target_reached_reward" default_reward_schema);
     maze_factory := (42, 1%nat);
     player := {| position := (0, 1) |};
     maze := Some (corridor 42) |}.

End CorridorMore.

(** * Properties *)

(** ** Index arithmetic *)

Example getitem_wraps : getitem [[0; 1]; [2; 3]] (-1, 0) = Some 2.
Proof. reflexivity. Qed.

Example setitem_out_of_range : setitem [[0; 1]; [2; 3]] (2, 0) 7 = None.
Proof. reflexivity. Qed.

Lemma np_index_lt n i k : np_index n i = Some k → (k < n)%nat.
Proof.
  unfold np_index. repeat case_bool_decide; intros [= <-]; lia.
Qed.

(** A cell that can be read can be written. *)
Lemma setitem_is_Some g p v : is_Some (getitem g p) → is_Some (setitem g p v).
Proof.
  unfold getitem, setitem. intros [c Hc].
  destruct (np_index (length g) p.1) as [i|]; simpl in *; [|done].
  destruct (g !! i) as [row|]; simpl in *; [|done].
  destruct (np_index (length row) p.2) as [j|]; simpl in *; [|done].
  eauto.
Qed.

(** Writing a cell keeps the shape: every index stays readable. *)
Lemma getitem_setitem_is_Some g p v g' q :
  setitem g p v = Some g' → is_Some (getitem g q) → is_Some (getitem g' q).
Proof.
  unfold getitem, setitem. intros Hs [c Hc].
  destruct (np_index (length g) p.1) as [i|] eqn:Hi; simpl in *; [|done].
  destruct (g !! i) as [row|] eqn:Hrow; simpl in *; [|done].
  destruct (np_index (length row) p.2) as [j|] eqn:Hj; simpl in *; [|done].
  injection Hs as <-. rewrite length_insert.
  destruct (np_index (length g) q.1) as [i'|] eqn:Hi'; simpl in *; [|done].
  destruct (g !! i') as [row'|] eqn:Hrow'; simpl in *; [|done].
  destruct (decide (i = i')) as [<-|Hne].
  - rewrite list_lookup_insert_eq by (by eapply lookup_lt_Some). simpl.
    rewrite length_insert. simplify_eq.
    destruct (np_index (length row) q.2) as [j'|] eqn:Hj'; simpl in *; [|done].
    destruct (decide (j = j')) as [<-|Hnej].
    + rewrite list_lookup_insert_eq by (by eapply np_index_lt). eauto.
    + rewrite list_lookup_insert_ne by done. eauto.
  - rewrite list_lookup_insert_ne by done. rewrite Hrow'. simpl.
    destruct (np_index (length row') q.2) as [j'|]; simpl in *; [|done]. eauto.
Qed.

(** The cell just written reads back as what was written. *)
Lemma getitem_setitem_eq g p v g' : setitem g p v = Some g' → getitem g' p = Some v.
Proof.
  unfold getitem, setitem. intros Hs.
  destruct (np_index (length g) p.1) as [i|] eqn:Hi; simpl in *; [|done].
  destruct (g !! i) as [row|] eqn:Hrow; simpl in *; [|done].
  destruct (np_index (length row) p.2) as [j|] eqn:Hj; simpl in *; [|done].
  injection Hs as <-. rewrite length_insert, Hi. simpl.
  rewrite list_lookup_insert_eq by (by eapply lookup_lt_Some). simpl.
  rewrite length_insert, Hj. simpl.
  apply list_lookup_insert_eq. by eapply np_index_lt.
Qed.

(** ** The methods *)

Section Properties.
Context `{Imports}.

(** [is_valid_move] never changes the object. *)
Lemma is_valid_move_pure pl a e : (is_valid_move pl a e).2 = e.
Proof.
  unfold is_valid_move. run.
  destruct (negb _); [done|].
  destruct (maze e) as [m|]; [|done].
  destruct (getitem _ _); [|done].
  by case_bool_decide.
Qed.

(** It answers [True] exactly on a free cell. *)
Lemma is_valid_move_true pl a e :
  is_valid_move pl a e = (Return true, e) ↔
  free_cell e (potential_next_position pl a) = true.
Proof.
  unfold is_valid_move, free_cell, inside_bounds. run.
  destruct (bool_decide (0 ≤ _ < rows e) && _); simpl; [|naive_solver].
  destruct (maze e) as [m|]; [|naive_solver].
  destruct (getitem _ _); [|naive_solver].
  case_bool_decide; naive_solver.
Qed.

(** [build_state_matrix] is the overlay of the spec, when every write
    lands inside the grid. *)
Lemma build_state_matrix_overlay e m g :
  maze e = Some m →
  overlay m (position (player e)) = Some g →
  build_state_matrix e = (Return g, set_state g e).
Proof.
  intros Hm Ho. unfold overlay in Ho.
  destruct (setitem (grid m) (start_position m) START) as [g1|] eqn:H1; simpl in Ho; [|done].
  destruct (setitem g1 (target_position m) TARGET) as [g2|] eqn:H2; simpl in Ho; [|done].
  unfold build_state_matrix. run.
  know Hm. know H1. know Hm. know H2. know Ho. reflexivity.
Qed.

(** The overlay succeeds as soon as the three cells it writes are cells
    of the grid. *)
Lemma overlay_is_Some m pos :
  is_Some (getitem (grid m) (start_position m)) →
  is_Some (getitem (grid m) (target_position m)) →
  is_Some (getitem (grid m) pos) →
  is_Some (overlay m pos).
Proof.
  intros Hs Ht Hp. unfold overlay.
  destruct (setitem_is_Some _ _ START Hs) as [g1 H1]. rewrite H1. simpl.
  destruct (setitem_is_Some g1 (target_position m) TARGET) as [g2 H2];
    [by eapply getitem_setitem_is_Some|]. rewrite H2. simpl.
  apply setitem_is_Some.
  eapply getitem_setitem_is_Some; [done|]. by eapply getitem_setitem_is_Some.
Qed.

(** PLAYER is written last, so it is what the player's cell shows, also
    when the player stands on the start or the target cell. *)
Lemma overlay_player_wins m pos g :
  overlay m pos = Some g → getitem g pos = Some PLAYER.
Proof.
  unfold overlay. intros Ho.
  destruct (setitem (grid m) _ START) as [g1|]; simpl in Ho; [|done].
  destruct (setitem g1 _ TARGET) as [g2|]; simpl in Ho; [|done].
  by eapply getitem_setitem_eq.
Qed.

(** C1. A move whose potential next position is outside
    [0, rows) x [0, cols), or is a WALL cell of the maze grid, is
    rejected: [step] leaves the object (and so the player's position)
    as it was and returns the observation held before the call, the
    reward [wall_collision_reward], [done = False], and an info mapping
    that says the move was invalid. *)
Theorem step_rejects_invalid_move (e : Labyrinth) (a : Action) (m : Maze)
    (rs : gmap string Number) (n w : Number) :
  maze e = Some m →
  reward_schema e = Some rs →
  rs !! "neutral_reward" = Some n →
  rs !! "wall_collision_reward" = Some w →
  inside_bounds e (potential_next_position (player e) a) = false ∨
    getitem (grid m) (potential_next_position (player e) a) = Some WALL →
  step a e =
    (Return {| observation := state e; reward := w; done := false;
               truncated := false; info := {[ "info" := "Invalid move!" ]} |},
     e).
Proof.
  intros Hm Hrs Hn Hw Hbad.
  assert (is_valid_move (player e) a e = (Return false, e)) as Hv.
  { unfold is_valid_move, inside_bounds in *. run.
    destruct (bool_decide (0 ≤ _ < rows e) && _); simpl; [|done].
    destruct Hbad as [|Hwall]; [done|].
    know Hm. know Hwall. by rewrite bool_decide_eq_true_2. }
  unfold step. run. know Hrs. know Hn. rewrite Hv. run.
  know Hrs. know Hw. reflexivity.
Qed.

(** C2. An accepted move that brings the player onto
    [target_position] returns [target_reached_reward] and
    [done = True]; the player stands on the new position. *)
Theorem step_reaches_target (e : Labyrinth) (a : Action) (m : Maze)
    (rs : gmap string Number) (n t : Number) :
  maze e = Some m →
  reward_schema e = Some rs →
  rs !! "neutral_reward" = Some n →
  rs !! "target_reached_reward" = Some t →
  is_valid_move (player e) a e = (Return true, e) →
  potential_next_position (player e) a = target_position m →
  step a e =
    (Return {| observation := state e; reward := t; done := true;
               truncated := false; info := {[ "info" := "Reached the target!" ]} |},
     set_player_position (target_position m) e).
Proof.
  intros Hm Hrs Hn Ht Hv Htarget.
  unfold step. run. know Hrs. know Hn. rewrite Hv. run.
  know Hm. rewrite Htarget. rewrite bool_decide_eq_true_2 by done.
  know Hrs. know Ht. reflexivity.
Qed.

(** C9. An accepted move that does not bring the player onto
    [target_position] returns exactly [neutral_reward] and
    [done = False] (with the observation rebuilt around the new
    position), provided the start and the target are cells of the grid,
    as they are in every constructed object. *)
Theorem step_neutral_move (e : Labyrinth) (a : Action) (m : Maze)
    (rs : gmap string Number) (n : Number) :
  maze e = Some m →
  reward_schema e = Some rs →
  rs !! "neutral_reward" = Some n →
  is_Some (getitem (grid m) (start_position m)) →
  is_Some (getitem (grid m) (target_position m)) →
  is_valid_move (player e) a e = (Return true, e) →
  potential_next_position (player e) a ≠ target_position m →
  ∃ g, overlay m (potential_next_position (player e) a) = Some g ∧
    step a e =
      (Return {| observation := g; reward := n; done := false;
                 truncated := false; info := ∅ |},
       set_state g (set_player_position (potential_next_position (player e) a) e)).
Proof.
  intros Hm Hrs Hn Hs Ht Hv Hne.
  destruct (overlay_is_Some m (potential_next_position (player e) a)) as [g Hg];
    [done..| |].
  { apply is_valid_move_true in Hv. unfold free_cell in Hv.
    rewrite Hm in Hv.
    destruct (getitem (grid m) (potential_next_position _ _)); [eauto|].
    by destruct (inside_bounds _ _). }
  exists g. split; [done|].
  unfold step. run. know Hrs. know Hn. rewrite Hv. run.
  know Hm. rewrite bool_decide_eq_false_2 by done.
  erewrite build_state_matrix_overlay; [|done..].
  run. reflexivity.
Qed.

(** ** What a call leaves behind *)

(** [build_state_matrix] touches nothing but [self.state]. *)
Lemma build_state_matrix_frame e : ∃ g, (build_state_matrix e).2 = set_state g e.
Proof.
  unfold build_state_matrix. run.
  destruct (maze e) as [m|] eqn:Hm; run; [|by exists (state e); destruct e].
  know Hm.
  do 3 (case_setitem; know Hm; [|by eexists]).
  by eexists.
Qed.

(** [step] touches [self.state] and the player's position only, and the
    position only by an accepted move. *)
Lemma step_frame a e :
  ∃ g p, (step a e).2 = set_state g (set_player_position p e) ∧
    (p = position (player e) ∨
     is_valid_move (player e) a e = (Return true, e) ∧
     p = potential_next_position (player e) a).
Proof.
  assert (∀ e', set_state (state e') (set_player_position (position (player e')) e') = e')
    as Hid by (by intros [? ? ? ? ? ? ? ? [?] ?]).
  unfold step. run.
  destruct (reward_schema e) as [rs|] eqn:Hrs; run; [|by eauto 6].
  destruct (rs !! "neutral_reward") as [n|]; run; [|by eauto 6].
  pose proof (is_valid_move_pure (player e) a e) as Hpure.
  destruct (is_valid_move (player e) a e) as [[[]|err] e'] eqn:Hv;
    simpl in Hpure; subst e'; run.
  - destruct (maze e) as [m|]; run; [|by eauto 8].
    case_bool_decide; run.
    + know Hrs. destruct (rs !! "target_reached_reward"); run;
        exists (state e); eauto 6.
    + destruct (build_state_matrix_frame
        (set_player_position (potential_next_position (player e) a) e)) as [g Hg].
      destruct (build_state_matrix _) as [[g'|err] e'']; simpl in Hg; subst e''; run.
      * exists g'. eauto 6.
      * exists g. eauto 6.
  - know Hrs. destruct (rs !! "wall_collision_reward"); run; by eauto 6.
  - by eauto 6.
Qed.

(** When [build_state_matrix] returns, it returns the overlay. *)
Lemma build_state_matrix_Return e m g e' :
  maze e = Some m →
  build_state_matrix e = (Return g, e') →
  overlay m (position (player e)) = Some g ∧ e' = set_state g e.
Proof.
  intros Hm. unfold build_state_matrix. run. know Hm.
  destruct (setitem (grid m) (start_position m) START) as [g1|] eqn:H1; know Hm; [|done].
  destruct (setitem g1 (target_position m) TARGET) as [g2|] eqn:H2; know Hm; [|done].
  destruct (setitem g2 (position (player e)) PLAYER) as [g3|] eqn:H3; run; [|done].
  intros [= <- <-]. unfold overlay. rewrite H1. simpl. rewrite H2. simpl. by rewrite H3.
Qed.

(** What a successful [setup_labyrinth] did: one draw from
    [self.np_random] (the number is not used), one maze from the factory
    the object holds, the player on that maze's start, the observation
    built around it. *)
Lemma setup_labyrinth_Return e r e' :
  setup_labyrinth e = (Return r, e') →
  ∃ x np m mf g,
    np_randint 0 1000000 (np_random e) = (Return x, np) ∧
    create_maze (maze_factory e) = (Return m, mf) ∧
    overlay m (start_position m) = Some g ∧
    e' = set_state g (set_player_position (start_position m)
           (set_maze m (set_maze_factory mf (set_np_random np e)))).
Proof.
  unfold setup_labyrinth. run.
  destruct (np_randint 0 1000000 (np_random e)) as [[x|err] np] eqn:Hnp; run; [|done].
  destruct (create_maze (maze_factory e)) as [[m|err] mf] eqn:Hmf; run; [|done].
  intros Hb. exists x, np, m, mf.
  destruct (build_state_matrix _) as [[g|err] e1] eqn:Hbuild; run; [|done].
  injection Hb as _ <-.
  apply (build_state_matrix_Return _ m) in Hbuild as [Ho ->]; [|done].
  by exists g.
Qed.

(** What a successful construction leaves: the reward table is the
    default one when no schema was passed and is not set at all when one
    was; the player stands on the start of the maze. *)
Lemma init_Return a g e g' :
  __init__ a g = (Return e, g') →
  ∃ m,
    maze e = Some m ∧
    position (player e) = start_position m ∧
    rows e = LabyrinthArgs.rows a ∧
    cols e = LabyrinthArgs.cols a ∧
    reward_schema e =
      (if falsy (LabyrinthArgs.reward_schema a) then Some default_reward_schema else None) ∧
    overlay m (start_position m) = Some (state e).
Proof.
  unfold __init__. run.
  destruct (np_ones_times _ _ _) as [st|err0]; run; [|done].
  destruct (LabyrinthArgs.seed a) as [sd|]; run;
    [|destruct (randint 0 1000000 g) as [[sd|err] g1]; run; [|done]].
  all: destruct (RandomState_new sd) as [np|err]; run; [|done].
  all: destruct (MazeFactory_new _) as [mf|err]; run; [|done].
  all: destruct (setup_labyrinth _) as [[r|err] e1] eqn:Hsetup; run; [|done].
  all: intros [= <- <-].
  all: apply setup_labyrinth_Return in Hsetup
         as (x & np' & m & mf' & gr & _ & _ & Ho & ->).
  all: exists m; by run.
Qed.

(** ** The player never leaves the free cells *)

(** One [step], whatever it gives back, keeps the player on a free
    cell. *)
Lemma step_keeps_free_cell a e :
  free_cell e (position (player e)) = true →
  free_cell (step a e).2 (position (player (step a e).2)) = true.
Proof.
  intros Hfree. destruct (step_frame a e) as (g & p & -> & [->|[Hv ->]]).
  - exact Hfree.
  - by apply is_valid_move_true in Hv.
Qed.

Lemma steps_keep_free_cell actions e :
  free_cell e (position (player e)) = true →
  free_cell (steps actions e) (position (player (steps actions e))) = true.
Proof.
  revert e. induction actions as [|a actions IH]; intros e Hfree; [done|].
  apply IH. by apply step_keeps_free_cell.
Qed.

Lemma steps_keep_maze actions e :
  maze (steps actions e) = maze e ∧
  rows (steps actions e) = rows e ∧
  cols (steps actions e) = cols e.
Proof.
  revert e. induction actions as [|a actions IH]; intros e; [done|].
  simpl. destruct (IH (step a e).2) as (-> & -> & ->).
  by destruct (step_frame a e) as (g & p & -> & _).
Qed.

(** C10. If the start position of the maze is inside
    [0, rows) x [0, cols) and is not a WALL cell, then after the
    construction and after every run of [step] calls, accepted or
    rejected, the player's position is inside the bounds and is not a
    WALL cell of the maze grid. *)
Theorem player_stays_on_free_cells (a : LabyrinthArgs.t) (g g' : PyRandom)
    (e : Labyrinth) (m : Maze) (actions : list Action) :
  __init__ a g = (Return e, g') →
  maze e = Some m →
  free_cell e (start_position m) = true →
  maze (steps actions e) = Some m ∧
  free_cell (steps actions e) (position (player (steps actions e))) = true.
Proof.
  intros Hinit Hm Hstart.
  apply init_Return in Hinit as (m' & Hm' & Hpos & _).
  split; [by rewrite (proj1 (steps_keep_maze actions e))|].
  apply steps_keep_free_cell. rewrite Hpos. congruence.
Qed.

(** ** No terminal state *)

(** An accepted move moves the player, whatever came before and
    whatever the rest of [step] does. *)
Lemma step_accepted_moves_player b e rs n :
  reward_schema e = Some rs →
  rs !! "neutral_reward" = Some n →
  is_valid_move (player e) b e = (Return true, e) →
  position (player (step b e).2) = potential_next_position (player e) b.
Proof.
  intros Hrs Hn Hv. unfold step. run. know Hrs. know Hn. rewrite Hv. run.
  destruct (maze e) as [m|]; run; [|done].
  case_bool_decide; know Hrs.
  - by destruct (rs !! "target_reached_reward").
  - destruct (build_state_matrix_frame
      (set_player_position (potential_next_position (player e) b) e)) as [g Hg].
    destruct (build_state_matrix _) as [[g'|err] e'']; simpl in Hg; by subst e''.
Qed.

(** A [step] that returned found the reward table with its neutral
    entry, and left the table in place. *)
Lemma step_Return_reward_schema a e r e' :
  step a e = (Return r, e') →
  ∃ rs n, reward_schema e' = Some rs ∧ rs !! "neutral_reward" = Some n.
Proof.
  intros Hstep.
  destruct (step_frame a e) as (g & p & Hframe & _).
  rewrite Hstep in Hframe. simpl in Hframe. subst e'. run.
  revert Hstep. unfold step. run.
  destruct (reward_schema e) as [rs|]; run; [|done].
  destruct (rs !! "neutral_reward") as [n|] eqn:Hn; run; [|done].
  eauto.
Qed.

(** C4, as the code has it. The object keeps no terminal flag: after a
    [step] that returned [done = True], a further [step] with no [reset]
    in between is handled like any other, and a move that passes the
    bounds-and-wall check is accepted and moves the player. *)
Theorem step_after_done_still_moves (e : Labyrinth) (a b : Action)
    (r : StepResult) (e' : Labyrinth) :
  step a e = (Return r, e') →
  done r = true →
  is_valid_move (player e') b e' = (Return true, e') →
  position (player (step b e').2) = potential_next_position (player e') b.
Proof.
  intros Hstep _ Hv.
  destruct (step_Return_reward_schema _ _ _ _ Hstep) as (rs & n & Hrs & Hn).
  by eapply step_accepted_moves_player.
Qed.

(** ** Construction *)

(** The default table is installed when no schema is passed. *)
Lemma init_default_reward_schema a g e g' :
  falsy (LabyrinthArgs.reward_schema a) = true →
  __init__ a g = (Return e, g') →
  reward_schema e = Some default_reward_schema.
Proof.
  intros Hf Hinit. apply init_Return in Hinit as (m & _ & _ & _ & _ & Hrs & _).
  by rewrite Hrs, Hf.
Qed.

(** C8, where the code departs from it. A reward schema passed to the
    constructor is not stored: the object has no [reward_schema]
    attribute, and every [step] raises [AttributeError] on its first
    line, leaving the object as it was. *)
Theorem supplied_reward_schema_is_dropped (a : LabyrinthArgs.t)
    (g g' : PyRandom) (e : Labyrinth) (action : Action) :
  falsy (LabyrinthArgs.reward_schema a) = false →
  __init__ a g = (Return e, g') →
  reward_schema e = None ∧ step action e = (Raise AttributeError, e).
Proof.
  intros Hf Hinit. apply init_Return in Hinit as (m & _ & _ & _ & _ & Hrs & _).
  rewrite Hf in Hrs. split; [done|].
  unfold step. run. by know Hrs.
Qed.

(** ** Reset *)

(** What [reset] does to the seed, and that the rest is
    [setup_labyrinth]. *)
Lemma reset_unfold seed_arg e :
  reset seed_arg e =
  match seed e with
  | Some n => setup_labyrinth (set_seed (Some (n + 1)) e)
  | None =>
      match randint 0 1000000 (py_random e) with
      | (Return v, g) => setup_labyrinth (set_seed (Some v) (set_py_random g e))
      | (Raise err, g) => (Raise err, set_py_random g e)
      end
  end.
Proof.
  unfold reset. run. destruct (seed e); run; [done|].
  by destruct (randint 0 1000000 (py_random e)) as [[v|err] g].
Qed.

(** [setup_labyrinth] does not read [self.seed]. *)
Lemma setup_labyrinth_seed s e :
  setup_labyrinth (set_seed s e) =
  ((setup_labyrinth e).1, set_seed s (setup_labyrinth e).2).
Proof.
  unfold setup_labyrinth, build_state_matrix. run.
  destruct (np_randint 0 1000000 (np_random e)) as [[x|err] np]; run; [|done].
  destruct (create_maze (maze_factory e)) as [[m|err] mf]; run; [|done].
  do 3 (case_setitem; run; [|done]).
  done.
Qed.

(** C6, where the code departs from it. The seed [reset] advances never
    reaches the maze factory: started from two objects that differ in
    [self.seed] only, [reset] gives the same outcome, the same maze, the
    same player, the same observation and leaves the same factory; and
    what it returns is [None], not an observation. *)
Theorem reset_maze_ignores_seed (e : Labyrinth) (s1 s2 : Z) (seed_arg : option Z) :
  (reset seed_arg (set_seed (Some s1) e)).1 = (reset seed_arg (set_seed (Some s2) e)).1 ∧
  maze (reset seed_arg (set_seed (Some s1) e)).2 =
    maze (reset seed_arg (set_seed (Some s2) e)).2 ∧
  player (reset seed_arg (set_seed (Some s1) e)).2 =
    player (reset seed_arg (set_seed (Some s2) e)).2 ∧
  state (reset seed_arg (set_seed (Some s1) e)).2 =
    state (reset seed_arg (set_seed (Some s2) e)).2 ∧
  maze_factory (reset seed_arg (set_seed (Some s1) e)).2 =
    maze_factory (reset seed_arg (set_seed (Some s2) e)).2.
Proof.
  rewrite !reset_unfold. run.
  replace (set_seed (Some (s1 + 1)) (set_seed (Some s1) e))
    with (set_seed (Some (s1 + 1)) e) by done.
  replace (set_seed (Some (s2 + 1)) (set_seed (Some s2) e))
    with (set_seed (Some (s2 + 1)) e) by done.
  rewrite !setup_labyrinth_seed. by run.
Qed.

(** C7, where the code departs from it. [reset] never reads its [seed]
    argument: a call with an explicit seed does exactly what a call
    without one does. *)
Theorem reset_ignores_seed_argument (e : Labyrinth) (s : Z) :
  reset (Some s) e = reset None e.
Proof. reflexivity. Qed.

(** With a seed set, as after every construction, [reset] increments it,
    whatever argument it was called with. *)
Lemma reset_increments_seed seed_arg e n r e' :
  seed e = Some n →
  reset seed_arg e = (r, e') →
  seed e' = Some (n + 1).
Proof.
  intros Hseed. rewrite reset_unfold, Hseed, setup_labyrinth_seed.
  by intros [= _ <-].
Qed.

End Properties.

(** ** The corridor, run *)

Section CorridorRuns.
#[local] Existing Instance corridor_imports.

Example env42_is_env0 : env42 = (Return env0, 7).
Proof. vm_compute. reflexivity. Qed.

Example env1_position : position (player env1) = (0, 1).
Proof. reflexivity. Qed.

Example env2_position : position (player env2) = (1, 1).
Proof. reflexivity. Qed.

(** Stepping down from the start runs into the wall at (1, 0). *)
Example step_into_wall :
  step DOWN env0 =
    (Return {| observation := [ [4; 1; 0]; [0; 2; 0]; [0; 1; 1] ];
               reward := PyInt (-1); done := false; truncated := false;
               info := {[ "info" := "Invalid move!" ]} |},
     env0).
Proof. vm_compute. reflexivity. Qed.

(** C1 at [Labyrinth(3, 3, seed=42)], stepping up and out of the grid. *)
Lemma step_rejects_invalid_move_witness :
  step UP env0 =
    (Return {| observation := state env0; reward := PyInt (-1); done := false;
               truncated := false; info := {[ "info" := "Invalid move!" ]} |},
     env0).
Proof.
  apply (step_rejects_invalid_move env0 UP (corridor 42) default_reward_schema
           (PyFloat (-0.01)) (PyInt (-1)));
    [reflexivity | reflexivity | reflexivity | reflexivity | left; reflexivity].
Defined.

(** C2 at the cell above the target. *)
Lemma step_reaches_target_witness :
  step DOWN env1 =
    (Return {| observation := state env1; reward := PyInt 10; done := true;
               truncated := false; info := {[ "info" := "Reached the target!" ]} |},
     set_player_position (1, 1) env1).
Proof.
  apply (step_reaches_target env1 DOWN (corridor 42) default_reward_schema
           (PyFloat (-0.01)) (PyInt 10));
    reflexivity.
Defined.

(** C9 at the start, stepping right. *)
Lemma step_neutral_move_witness :
  ∃ g, overlay (corridor 42) (0, 1) = Some g ∧
    step RIGHT env0 =
      (Return {| observation := g; reward := PyFloat (-0.01); done := false;
                 truncated := false; info := ∅ |},
       set_state g (set_player_position (0, 1) env0)).
Proof.
  apply (step_neutral_move env0 RIGHT (corridor 42) default_reward_schema
           (PyFloat (-0.01)));
    [reflexivity | reflexivity | reflexivity | by eexists | by eexists
    | reflexivity | discriminate].
Defined.

(** The observation after that step shows the player at (0, 1) and the
    start marker where the player was. *)
Example step_right_observation :
  observation <$> (match (step RIGHT env0).1 with Return r => Some r | Raise _ => None end)
  = Some [ [3; 4; 0]; [0; 2; 0]; [0; 1; 1] ].
Proof. vm_compute. reflexivity. Qed.

(** C3 at the move onto the target: the player is moved to (1, 1), and
    the observation [step] returns is the one from before the move, with
    the player still drawn at (0, 1) and the target marker in place; the
    overlay around the new position is another grid. *)
Theorem step_onto_target_returns_old_observation :
  (step DOWN env1).1 =
    Return {| observation := [ [3; 4; 0]; [0; 2; 0]; [0; 1; 1] ];
              reward := PyInt 10; done := true; truncated := false;
              info := {[ "info" := "Reached the target!" ]} |} ∧
  position (player (step DOWN env1).2) = (1, 1) ∧
  state (step DOWN env1).2 = state env1 ∧
  overlay (corridor 42) (1, 1) = Some [ [3; 1; 0]; [0; 4; 0]; [0; 1; 1] ].
Proof. vm_compute. done. Qed.

(** C4 fails as stated: the step onto the target returns [done = True],
    and the next [step], with no [reset] in between, is accepted: the
    player walks on to (2, 1) and gets the neutral reward. *)
Lemma step_accepted_after_done :
  (step DOWN env1).1 =
    Return {| observation := [ [3; 4; 0]; [0; 2; 0]; [0; 1; 1] ];
              reward := PyInt 10; done := true; truncated := false;
              info := {[ "info" := "Reached the target!" ]} |} ∧
  (step DOWN env1).2 = env2 ∧
  (step DOWN env2).1 =
    Return {| observation := [ [3; 1; 0]; [0; 2; 0]; [0; 4; 1] ];
              reward := PyFloat (-0.01); done := false; truncated := false;
              info := ∅ |} ∧
  position (player (step DOWN env2).2) = (2, 1).
Proof. vm_compute. done. Qed.

(** C4 as amended, at the same two steps. *)
Lemma step_after_done_still_moves_witness :
  position (player (step DOWN env2).2) = potential_next_position (player env2) DOWN.
Proof.
  apply (step_after_done_still_moves env1 DOWN DOWN
           {| observation := [ [3; 4; 0]; [0; 2; 0]; [0; 1; 1] ];
              reward := PyInt 10; done := true; truncated := false;
              info := {[ "info" := "Reached the target!" ]} |} env2);
    reflexivity.
Defined.

(** C10 at [Labyrinth(3, 3, seed=42)] and a walk that bumps into walls,
    crosses the target and leaves the grid's edge alone. *)
Lemma player_stays_on_free_cells_witness :
  maze (steps [UP; DOWN; RIGHT; RIGHT; DOWN; DOWN; LEFT; DOWN; RIGHT; RIGHT] env0)
    = Some (corridor 42) ∧
  free_cell (steps [UP; DOWN; RIGHT; RIGHT; DOWN; DOWN; LEFT; DOWN; RIGHT; RIGHT] env0)
    (position (player
       (steps [UP; DOWN; RIGHT; RIGHT; DOWN; DOWN; LEFT; DOWN; RIGHT; RIGHT] env0)))
    = true.
Proof.
  apply (player_stays_on_free_cells (H:=corridor_imports) (LabyrinthArgs.defaults 3 3 None (Some 42)) 7 7
           env0 (corridor 42));
    [vm_compute; reflexivity | reflexivity | reflexivity].
Defined.

Example walk_ends_in_the_corner :
  position (player
    (steps [UP; DOWN; RIGHT; RIGHT; DOWN; DOWN; LEFT; DOWN; RIGHT; RIGHT] env0)) = (2, 2).
Proof. vm_compute. reflexivity. Qed.

(** Without a seed the maze follows the shared generator. *)
Example unseeded_construction_follows_entropy :
  (__init__ (LabyrinthArgs.defaults 3 3 None None) 7).1 ≠
  (__init__ (LabyrinthArgs.defaults 3 3 None None) 8).1.
Proof. vm_compute. discriminate. Qed.

(** C8 at [Labyrinth(3, 3, reward_schema=custom_schema, seed=42)]. *)
Lemma supplied_reward_schema_is_dropped_witness :
  reward_schema (corridor_env None) = None ∧
  step UP (corridor_env None) = (Raise AttributeError, corridor_env None).
Proof.
  apply (supplied_reward_schema_is_dropped (H:=corridor_imports)
           (LabyrinthArgs.defaults 3 3 (Some custom_schema) (Some 42)) 7 7);
    [vm_compute; reflexivity | vm_compute; reflexivity].
Defined.

(** An empty mapping counts as no schema. *)
Example empty_reward_schema_gives_default :
  (__init__ (LabyrinthArgs.defaults 3 3 (Some ∅) (Some 42)) 7).1 = Return env0.
Proof. vm_compute. reflexivity. Qed.

(** [reset()] on [Labyrinth(3, 3, seed=42)]: the seed becomes 43, the
    maze is the next one of the factory built with 42, and a factory
    built with 43 would have made another. *)
Example reset_keeps_the_first_factory :
  (reset None env0).1 = Return () ∧
  seed (reset None env0).2 = Some 43 ∧
  maze (reset None env0).2 = Some (corridor 42) ∧
  maze_factory (reset None env0).2 = (42, 2%nat) ∧
  (create_maze (43, 0%nat)).1 = Return (corridor 43) ∧
  corridor 43 ≠ corridor 42.
Proof. vm_compute. repeat split; discriminate. Qed.

(** [reset(seed=7)] on the same object: the seed becomes 43, not 7. *)
Example reset_with_explicit_seed :
  seed (reset (Some 7) env0).2 = Some 43 ∧
  reset (Some 7) env0 = reset None env0.
Proof. vm_compute. done. Qed.

End CorridorRuns.

(** * Further properties *)

(** ** Cells of an array *)

Lemma np_index_Some n i :
  0 ≤ i < Z.of_nat n → np_index n i = Some (Z.to_nat i).
Proof. intros Hi. unfold np_index. by rewrite bool_decide_eq_true_2. Qed.

(** A position reads a value exactly when it is a cell. *)
Lemma getitem_cell_of g p : is_Some (getitem g p) ↔ is_Some (cell_of g p).
Proof.
  unfold getitem, cell_of.
  destruct (np_index (length g) p.1) as [i|]; simpl; [|done].
  destruct (g !! i) as [row|]; simpl; [|done].
  destruct (np_index (length row) p.2) as [j|] eqn:Hj; simpl; [|done].
  split; [eauto|]. intros _. apply lookup_lt_is_Some. by eapply np_index_lt.
Qed.

(** Writing a cell changes no row length. *)
Lemma setitem_shape g p v g' : setitem g p v = Some g' → shape g' = shape g.
Proof.
  unfold setitem, shape. intros Hs.
  destruct (np_index (length g) p.1) as [i|]; simpl in Hs; [|done].
  destruct (g !! i) as [row|] eqn:Hrow; simpl in Hs; [|done].
  destruct (np_index (length row) p.2) as [j|]; simpl in Hs; [|done].
  injection Hs as <-. rewrite list_fmap_insert, length_insert.
  apply list_insert_id. by rewrite list_lookup_fmap, Hrow.
Qed.

(** What is a cell, and which, depends on the shape only. *)
Lemma cell_of_shape g g' p : shape g' = shape g → cell_of g' p = cell_of g p.
Proof.
  unfold cell_of, shape. intros Hsh.
  assert (length g' = length g) as ->
    by (by rewrite <-(length_fmap length g'), Hsh, length_fmap).
  destruct (np_index (length g) p.1) as [i|]; simpl; [|done].
  pose proof (f_equal (λ l, l !! i) Hsh) as Hi. simpl in Hi.
  rewrite !list_lookup_fmap in Hi.
  destruct (g' !! i) as [row'|], (g !! i) as [row|]; simpl in *; [|done..].
  injection Hi as ->. done.
Qed.

(** Reading after writing: the written cell holds the new value, every
    other position reads what it read before. *)
Lemma getitem_setitem g p v g' q :
  setitem g p v = Some g' →
  getitem g' q =
    if decide (cell_of g q = cell_of g p) then Some v else getitem g q.
Proof.
  intros Hs. pose proof (setitem_shape _ _ _ _ Hs) as Hsh.
  pose proof (cell_of_shape _ _ q Hsh) as Hcq. revert Hs Hcq.
  unfold getitem, setitem, cell_of. intros Hs Hcq.
  destruct (np_index (length g) p.1) as [i|] eqn:Hi; simpl in *; [|done].
  destruct (g !! i) as [row|] eqn:Hrow; simpl in *; [|done].
  destruct (np_index (length row) p.2) as [j|] eqn:Hj; simpl in *; [|done].
  injection Hs as <-. rewrite length_insert in *.
  destruct (np_index (length g) q.1) as [i'|] eqn:Hi'; simpl in *;
    [|by repeat case_decide].
  destruct (decide (i' = i)) as [->|Hne].
  - rewrite list_lookup_insert_eq in * by (by eapply lookup_lt_Some).
    rewrite Hrow in *. simpl in *. rewrite length_insert in *.
    destruct (np_index (length row) q.2) as [j'|] eqn:Hj'; simpl in *;
      [|by repeat case_decide].
    destruct (decide (j' = j)) as [->|Hnej].
    + rewrite decide_True by done.
      apply list_lookup_insert_eq. by eapply np_index_lt.
    + rewrite decide_False by congruence. by apply list_lookup_insert_ne.
  - rewrite list_lookup_insert_ne in * by done.
    destruct (g !! i') as [row'|]; simpl in *; [|by repeat case_decide].
    destruct (np_index (length row') q.2) as [j'|]; simpl in *;
      [|by repeat case_decide].
    rewrite decide_False by congruence. done.
Qed.

(** Inside an array of shape [(rows, cols)] every position within the
    bounds is a cell. *)
Lemma has_shape_cell rows cols g p :
  has_shape rows cols g →
  0 ≤ p.1 < rows → 0 ≤ p.2 < cols →
  cell_of g p = Some (Z.to_nat p.1, Z.to_nat p.2).
Proof.
  intros (Hr & Hc & Hsh) H1 H2. unfold cell_of.
  assert (length g = Z.to_nat rows) as Hlen.
  { pose proof (f_equal length Hsh) as Hl. unfold shape in Hl.
    by rewrite length_fmap, length_replicate in Hl. }
  rewrite np_index_Some by lia. simpl.
  destruct (g !! Z.to_nat p.1) as [row|] eqn:Hrow; simpl.
  - assert (length row = Z.to_nat cols) as Hrl.
    { pose proof (f_equal (λ l, l !! Z.to_nat p.1) Hsh) as Hi. simpl in Hi.
      unfold shape in Hi. rewrite list_lookup_fmap, Hrow in Hi. simpl in Hi.
      rewrite lookup_replicate_2 in Hi by lia. congruence. }
    rewrite np_index_Some by lia. done.
  - apply lookup_ge_None in Hrow. lia.
Qed.

Section MoreProperties.
Context `{Imports}.

(** ** The move check *)

(** X6. With a maze set, [is_valid_move] raises [IndexError] exactly
    when the potential next position is inside the declared bounds and
    yet no cell of the maze grid; the object is left as it was. *)
Theorem is_valid_move_raises_iff (pl : Player) (a : Action) (e : Labyrinth) (m : Maze) :
  maze e = Some m →
  is_valid_move pl a e = (Raise IndexError, e) ↔
  inside_bounds e (potential_next_position pl a) = true ∧
  cell_of (grid m) (potential_next_position pl a) = None.
Proof.
  intros Hm. unfold is_valid_move, inside_bounds. run.
  destruct (bool_decide (0 ≤ _ < rows e) && _); simpl;
    [|split; [done|by intros []]].
  know Hm.
  pose proof (getitem_cell_of (grid m) (potential_next_position pl a)) as Hc.
  destruct (getitem (grid m) _) as [v|]; run.
  - destruct Hc as [[c ->] _]; [by eauto|].
    case_bool_decide; (split; [done|by intros []]).
  - destruct (cell_of (grid m) _) as [c|]; [|done].
    destruct Hc as [_ [? ?]]; [by eauto|done].
Qed.

(** X7. When the maze grid has the shape [(rows, cols)] the object was
    built with, [is_valid_move] never raises: it returns whether the
    potential next position is a free cell and changes nothing. *)
Theorem is_valid_move_total (pl : Player) (a : Action) (e : Labyrinth) (m : Maze) :
  maze e = Some m →
  has_shape (rows e) (cols e) (grid m) →
  is_valid_move pl a e =
    (Return (free_cell e (potential_next_position pl a)), e).
Proof.
  intros Hm Hsh. unfold is_valid_move, free_cell, inside_bounds. run.
  destruct (bool_decide (0 ≤ _ < rows e)) eqn:H1; simpl; [|done].
  destruct (bool_decide (0 ≤ _ < cols e)) eqn:H2; simpl; [|done].
  apply bool_decide_eq_true in H1, H2.
  know Hm.
  pose proof (has_shape_cell _ _ _ _ Hsh H1 H2) as Hcell.
  destruct (proj2 (getitem_cell_of (grid m) (potential_next_position pl a)))
    as [v Hv]; [by rewrite Hcell|].
  know Hv. by case_bool_decide.
Qed.

(** ** The observation *)

(** X8. The observation [build_state_matrix] returns has the shape of
    the maze grid, and it is what [self.state] holds afterwards. *)
Theorem build_state_matrix_shape (e : Labyrinth) (m : Maze) (g : Grid) (e' : Labyrinth) :
  maze e = Some m →
  build_state_matrix e = (Return g, e') →
  shape g = shape (grid m) ∧ state e' = g.
Proof.
  intros Hm Hb. apply (build_state_matrix_Return _ m) in Hb as [Ho ->]; [|done].
  split; [|done]. unfold overlay in Ho.
  destruct (setitem (grid m) _ START) as [g1|] eqn:H1; simpl in Ho; [|done].
  destruct (setitem g1 _ TARGET) as [g2|] eqn:H2; simpl in Ho; [|done].
  apply setitem_shape in H1, H2, Ho. congruence.
Qed.

(** X9. Cell by cell, the observation [build_state_matrix] returns shows
    PLAYER on the player's cell, else TARGET on the target cell, else
    START on the start cell, else the code of the maze grid; positions
    are compared as cells, so a negative index and its wrapped
    counterpart count as one. *)
Theorem build_state_matrix_cells (e : Labyrinth) (m : Maze) (g : Grid)
    (e' : Labyrinth) (q : Position) :
  maze e = Some m →
  build_state_matrix e = (Return g, e') →
  getitem g q =
    if decide (cell_of (grid m) q = cell_of (grid m) (position (player e)))
    then Some PLAYER
    else if decide (cell_of (grid m) q = cell_of (grid m) (target_position m))
    then Some TARGET
    else if decide (cell_of (grid m) q = cell_of (grid m) (start_position m))
    then Some START
    else getitem (grid m) q.
Proof.
  intros Hm Hb. apply (build_state_matrix_Return _ m) in Hb as [Ho _]; [|done].
  unfold overlay in Ho.
  destruct (setitem (grid m) _ START) as [g1|] eqn:H1; simpl in Ho; [|done].
  destruct (setitem g1 _ TARGET) as [g2|] eqn:H2; simpl in Ho; [|done].
  pose proof (setitem_shape _ _ _ _ H1) as S1.
  pose proof (setitem_shape _ _ _ _ H2) as S2.
  rewrite (getitem_setitem _ _ _ _ q Ho), (getitem_setitem _ _ _ _ q H2),
    (getitem_setitem _ _ _ _ q H1).
  rewrite !(cell_of_shape g1 g2) by done.
  rewrite !(cell_of_shape (grid m) g1) by done.
  done.
Qed.

End MoreProperties.

Section StepProperties.
Context `{Imports}.

(** ** Reading a result of [step] backwards *)

(** Every way [step] can return: a rejection, an arrival on the target,
    or a plain move. *)
Lemma step_Return_inv a e r e' :
  step a e = (Return r, e') →
  ∃ rs n, reward_schema e = Some rs ∧ rs !! "neutral_reward" = Some n ∧
    ((is_valid_move (player e) a e = (Return false, e) ∧ e' = e ∧
      ∃ w, rs !! "wall_collision_reward" = Some w ∧
        r = {| observation := state e; reward := w; done := false;
               truncated := false; info := {[ "info" := "Invalid move!" ]} |}) ∨
     (is_valid_move (player e) a e = (Return true, e) ∧
      ∃ m, maze e = Some m ∧
        ((potential_next_position (player e) a = target_position m ∧
          e' = set_player_position (potential_next_position (player e) a) e ∧
          ∃ t, rs !! "target_reached_reward" = Some t ∧
            r = {| observation := state e; reward := t; done := true;
                   truncated := false;
                   info := {[ "info" := "Reached the target!" ]} |}) ∨
         (potential_next_position (player e) a ≠ target_position m ∧
          ∃ g, overlay m (potential_next_position (player e) a) = Some g ∧
            e' = set_state g
                   (set_player_position (potential_next_position (player e) a) e) ∧
            r = {| observation := g; reward := n; done := false;
                   truncated := false; info := ∅ |})))).
Proof.
  unfold step. run.
  destruct (reward_schema e) as [rs|] eqn:Hrs; run; [|done].
  destruct (rs !! "neutral_reward") as [n|] eqn:Hn; run; [|done].
  pose proof (is_valid_move_pure (player e) a e) as Hpure.
  destruct (is_valid_move (player e) a e) as [[[]|err] e1] eqn:Hv;
    simpl in Hpure; subst e1; run; [| |done].
  - destruct (maze e) as [m|] eqn:Hm; run; [|done].
    case_bool_decide as Ht; know Hrs.
    + destruct (rs !! "target_reached_reward") as [t|] eqn:Hk; run; [|done].
      intros [= <- <-]. exists rs, n. do 2 (split; [done|]). right.
      split; [done|]. exists m. split; [done|]. left. eauto.
    + destruct (build_state_matrix _) as [[g|err] e2] eqn:Hb; run; [|done].
      apply (build_state_matrix_Return _ m) in Hb as [Ho ->]; [|done].
      intros [= <- <-]. exists rs, n. do 2 (split; [done|]). right.
      split; [done|]. exists m. split; [done|]. right.
      split; [done|]. exists g. by run.
  - know Hrs.
    destruct (rs !! "wall_collision_reward") as [w|] eqn:Hk; run; [|done].
    intros [= <- <-]. exists rs, n. do 2 (split; [done|]). left. eauto.
Qed.

(** X1. [done = True] comes back only from an arrival: the player then
    stands on the target, the info says so, and the observation handed
    back, like the one the object keeps, is still the one from before
    the move. *)
Theorem step_done_only_on_target (a : Action) (e : Labyrinth)
    (r : StepResult) (e' : Labyrinth) :
  step a e = (Return r, e') →
  done r = true →
  ∃ m, maze e' = Some m ∧
    position (player e') = target_position m ∧
    info r = {[ "info" := "Reached the target!" ]} ∧
    observation r = state e ∧
    state e' = state e.
Proof.
  intros Hstep Hdone.
  apply step_Return_inv in Hstep
    as (rs & n & _ & _ &
        [(_ & _ & w & _ & ->)
        |(_ & m & Hm & [(Ht & -> & t & _ & ->)|(_ & g & _ & _ & ->)])]);
    [done| |done].
  exists m. by rewrite <-Ht.
Qed.

(** X2. A result of [step] never has [truncated] set, and its reward is
    one of the three entries of the object's reward table. *)
Theorem step_reward_from_table (a : Action) (e : Labyrinth)
    (r : StepResult) (e' : Labyrinth) :
  step a e = (Return r, e') →
  truncated r = false ∧
  ∃ rs, reward_schema e = Some rs ∧
    (rs !! "neutral_reward" = Some (reward r) ∨
     rs !! "wall_collision_reward" = Some (reward r) ∨
     rs !! "target_reached_reward" = Some (reward r)).
Proof.
  intros Hstep.
  apply step_Return_inv in Hstep
    as (rs & n & Hrs & Hn &
        [(_ & _ & w & Hw & ->)
        |(_ & m & Hm & [(_ & _ & t & Ht & ->)|(_ & g & _ & _ & ->)])]);
    (split; [done|]); exists rs; simpl; eauto.
Qed.

(** X3. The info ["Invalid move!"] comes back only from a rejection:
    nothing in the object has changed, the observation is the one held
    before, and the potential next position was no free cell. *)
Theorem step_invalid_info_unchanged (a : Action) (e : Labyrinth)
    (r : StepResult) (e' : Labyrinth) :
  step a e = (Return r, e') →
  info r = {[ "info" := "Invalid move!" ]} →
  e' = e ∧
  observation r = state e ∧
  done r = false ∧
  free_cell e (potential_next_position (player e) a) = false.
Proof.
  intros Hstep Hinfo.
  apply step_Return_inv in Hstep
    as (rs & n & _ & _ &
        [(Hv & -> & w & _ & ->)
        |(_ & m & Hm & [(_ & _ & t & _ & ->)|(_ & g & _ & _ & ->)])]);
    simpl in Hinfo.
  - repeat split.
    destruct (free_cell e _) eqn:Hfree; [|done].
    apply is_valid_move_true in Hfree. congruence.
  - apply (f_equal (λ i : gmap string string, i !! "info")) in Hinfo.
    by rewrite !lookup_singleton_eq in Hinfo.
  - apply (f_equal (λ i : gmap string string, i !! "info")) in Hinfo.
    by rewrite lookup_singleton_eq, lookup_empty in Hinfo.
Qed.

(** X4. Whatever it returns or raises, [step] leaves the bounds, the
    maze, the reward table, the seed, both generators and the factory
    as they were. *)
Theorem step_keeps_configuration (a : Action) (e : Labyrinth) :
  rows (step a e).2 = rows e ∧
  cols (step a e).2 = cols e ∧
  maze (step a e).2 = maze e ∧
  reward_schema (step a e).2 = reward_schema e ∧
  seed (step a e).2 = seed e ∧
  py_random (step a e).2 = py_random e ∧
  np_random (step a e).2 = np_random e ∧
  maze_factory (step a e).2 = maze_factory e.
Proof. by destruct (step_frame a e) as (g & p & -> & _). Qed.

(** X5. A reward table without ["target_reached_reward"] makes the
    arrival on the target fail half way: [step] raises [KeyError] after
    the player has been moved, so the object is left with the player on
    the target and the old observation. *)
Theorem step_missing_target_reward (e : Labyrinth) (a : Action) (m : Maze)
    (rs : gmap string Number) (n : Number) :
  maze e = Some m →
  reward_schema e = Some rs →
  rs !! "neutral_reward" = Some n →
  rs !! "target_reached_reward" = None →
  is_valid_move (player e) a e = (Return true, e) →
  potential_next_position (player e) a = target_position m →
  step a e = (Raise KeyError, set_player_position (target_position m) e).
Proof.
  intros Hm Hrs Hn Hk Hv Ht.
  unfold step. run. know Hrs. know Hn. rewrite Hv. run.
  know Hm. rewrite Ht. rewrite bool_decide_eq_true_2 by done.
  know Hrs. by know Hk.
Qed.

(** ** Walking *)

(** X17. From a free cell, an accepted move followed by the opposite
    action brings the player back to where it stood. *)
Theorem step_there_and_back (e : Labyrinth) (a b : Action)
    (rs : gmap string Number) (n : Number) :
  reward_schema e = Some rs →
  rs !! "neutral_reward" = Some n →
  free_cell e (position (player e)) = true →
  is_valid_move (player e) a e = (Return true, e) →
  (action_delta a).1 + (action_delta b).1 = 0 →
  (action_delta a).2 + (action_delta b).2 = 0 →
  position (player (steps [a; b] e)) = position (player e).
Proof.
  intros Hrs Hn Hfree Hv H1 H2. simpl.
  pose proof (step_accepted_moves_player a e rs n Hrs Hn Hv) as Hpos.
  destruct (step_frame a e) as (g & p & Hframe & _).
  set (e1 := (step a e).2) in *.
  assert (potential_next_position (player e1) b = position (player e)) as Hback.
  { unfold potential_next_position at 1. rewrite Hpos.
    unfold potential_next_position. simpl.
    destruct (position (player e)) as [r c]. simpl. f_equal; lia. }
  assert (is_valid_move (player e1) b e1 = (Return true, e1)) as Hv1.
  { apply is_valid_move_true. rewrite Hback.
    clearbody e1. subst e1. exact Hfree. }
  rewrite (step_accepted_moves_player b e1 rs n); [done| | |done].
  - clearbody e1. by subst e1.
  - done.
Qed.

End StepProperties.

Section LifecycleProperties.
Context `{Imports}.

(** ** Construction, further *)

(** X10. With an explicit seed the constructor never touches the shared
    generator of [random], whether it succeeds or raises. *)
Theorem init_seeded_keeps_shared_generator (a : LabyrinthArgs.t) (s : Z)
    (g : PyRandom) :
  LabyrinthArgs.seed a = Some s →
  (__init__ a g).2 = g.
Proof.
  intros Hseed. unfold __init__. run. rewrite Hseed.
  destruct (np_ones_times _ _ _) as [st|err0]; run; [|done].
  destruct (RandomState_new s) as [np|err]; run; [|done].
  destruct (MazeFactory_new _) as [mf|err]; run; [|done].
  done.
Qed.

(** X11. Without a seed the constructor takes exactly one draw from
    the shared generator when the array of its first line can be
    allocated, whatever happens afterwards, and none when it cannot:
    the allocation comes before the draw. *)
Theorem init_unseeded_draws_once (a : LabyrinthArgs.t) (g : PyRandom) :
  LabyrinthArgs.seed a = None →
  (__init__ a g).2 =
    match np_ones_times (LabyrinthArgs.rows a) (LabyrinthArgs.cols a) WALL with
    | Return _ => (randint 0 1000000 g).2
    | Raise _ => g
    end.
Proof.
  intros Hseed. unfold __init__. run. rewrite Hseed.
  destruct (np_ones_times _ _ _) as [st|err0]; run; [|done].
  destruct (randint 0 1000000 g) as [[s|err] g1]; run; [|done].
  destruct (RandomState_new s) as [np|err]; run; [|done].
  destruct (MazeFactory_new _) as [mf|err]; run; [|done].
  done.
Qed.

(** X12. A negative number of rows or columns makes the constructor
    raise [ValueError] at once, before any generator is read. *)
Theorem init_negative_dimension (a : LabyrinthArgs.t) (g : PyRandom) :
  LabyrinthArgs.rows a < 0 ∨ LabyrinthArgs.cols a < 0 →
  __init__ a g = (Raise ValueError, g).
Proof.
  intros Hneg. unfold __init__, np_ones_times. run.
  rewrite bool_decide_eq_false_2 by lia. done.
Qed.

(** X13. The first observation: after a successful construction the
    player stands on the start cell, the observation shows PLAYER there
    (the START code is covered), and it has the shape of the maze
    grid. *)
Theorem init_first_observation (a : LabyrinthArgs.t) (g g' : PyRandom)
    (e : Labyrinth) :
  __init__ a g = (Return e, g') →
  ∃ m, maze e = Some m ∧
    position (player e) = start_position m ∧
    getitem (state e) (start_position m) = Some PLAYER ∧
    shape (state e) = shape (grid m).
Proof.
  intros Hinit. apply init_Return in Hinit as (m & Hm & Hpos & _ & _ & _ & Ho).
  exists m. split; [done|]. split; [done|].
  split; [by eapply overlay_player_wins|].
  unfold overlay in Ho.
  destruct (setitem (grid m) _ START) as [g1|] eqn:H1; simpl in Ho; [|done].
  destruct (setitem g1 _ TARGET) as [g2|] eqn:H2; simpl in Ho; [|done].
  apply setitem_shape in H1, H2, Ho. congruence.
Qed.

(** X14. The seed a constructed object stores is the one passed, or
    else the number drawn from the shared generator; the object's own
    [py_random] is seeded with it and not drawn from during the
    construction. *)
Theorem init_seed_bookkeeping (a : LabyrinthArgs.t) (g g' : PyRandom)
    (e : Labyrinth) :
  __init__ a g = (Return e, g') →
  ∃ s, seed e = Some s ∧ py_random e = Random s ∧
    (LabyrinthArgs.seed a = Some s ∧ g' = g ∨
     LabyrinthArgs.seed a = None ∧ randint 0 1000000 g = (Return s, g')).
Proof.
  unfold __init__. run.
  destruct (np_ones_times _ _ _) as [st|err0]; run; [|done].
  destruct (LabyrinthArgs.seed a) as [sd|]; run;
    [|destruct (randint 0 1000000 g) as [[sd|err] g1]; run; [|done]].
  all: destruct (RandomState_new sd) as [np|err]; run; [|done].
  all: destruct (MazeFactory_new _) as [mf|err]; run; [|done].
  all: destruct (setup_labyrinth _) as [[r|err] e1] eqn:Hsetup; run; [|done].
  all: intros [= <- <-].
  all: apply setup_labyrinth_Return in Hsetup
         as (x & np' & m & mf' & gr & _ & _ & _ & ->).
  all: exists sd; run; eauto.
Qed.

(** ** Reset, further *)

(** [setup_labyrinth] leaves the bounds, the seed, the reward table and
    [py_random] alone, whatever it gives back. *)
Lemma setup_labyrinth_frame e :
  rows (setup_labyrinth e).2 = rows e ∧
  cols (setup_labyrinth e).2 = cols e ∧
  seed (setup_labyrinth e).2 = seed e ∧
  reward_schema (setup_labyrinth e).2 = reward_schema e ∧
  py_random (setup_labyrinth e).2 = py_random e.
Proof.
  unfold setup_labyrinth. run.
  destruct (np_randint 0 1000000 (np_random e)) as [[x|err] np]; run; [|done].
  destruct (create_maze (maze_factory e)) as [[m|err] mf]; run; [|done].
  set (e1 := set_player_position _ _).
  destruct (build_state_matrix_frame e1) as [g Hg].
  destruct (build_state_matrix e1) as [[g'|err] e2]; simpl in Hg; by subst e2.
Qed.

(** One [reset] on an object with a seed: the seed goes up by one and
    the bounds, the reward table and [py_random] stay. *)
Lemma reset_frame seed_arg e n :
  seed e = Some n →
  seed (reset seed_arg e).2 = Some (n + 1) ∧
  rows (reset seed_arg e).2 = rows e ∧
  cols (reset seed_arg e).2 = cols e ∧
  reward_schema (reset seed_arg e).2 = reward_schema e ∧
  py_random (reset seed_arg e).2 = py_random e.
Proof.
  intros Hseed. rewrite reset_unfold, Hseed.
  by destruct (setup_labyrinth_frame (set_seed (Some (n + 1)) e))
    as (-> & -> & -> & -> & ->).
Qed.

(** X15. After a [reset] that returned, the player stands on the start
    of the maze the object now holds and the observation is the overlay
    around it; the seed went up by one; the bounds, the reward table
    and [py_random] are the old ones. *)
Theorem reset_Return (seed_arg : option Z) (e : Labyrinth) (n : Z)
    (r : ()) (e' : Labyrinth) :
  seed e = Some n →
  reset seed_arg e = (Return r, e') →
  ∃ m, maze e' = Some m ∧
    position (player e') = start_position m ∧
    overlay m (start_position m) = Some (state e') ∧
    seed e' = Some (n + 1) ∧
    rows e' = rows e ∧ cols e' = cols e ∧
    reward_schema e' = reward_schema e ∧
    py_random e' = py_random e.
Proof.
  intros Hseed Hreset.
  pose proof (reset_frame seed_arg e n Hseed) as Hframe.
  rewrite Hreset in Hframe. simpl in Hframe.
  rewrite reset_unfold, Hseed in Hreset.
  apply setup_labyrinth_Return in Hreset
    as (x & np & m & mf & g & _ & _ & Ho & Heq).
  exists m. subst e'. by run.
Qed.

(** X16. When the factory fails, [reset] raises the factory's error
    half way: the seed has gone up and [np_random] has been drawn from,
    while the maze, the player and the observation are still those of
    the old episode. *)
Theorem reset_factory_failure (seed_arg : option Z) (e : Labyrinth) (n x : Z)
    (np : RandomState) (err : PyError) (mf : MazeFactory) :
  seed e = Some n →
  np_randint 0 1000000 (np_random e) = (Return x, np) →
  create_maze (maze_factory e) = (Raise err, mf) →
  reset seed_arg e =
    (Raise err,
     set_maze_factory mf (set_np_random np (set_seed (Some (n + 1)) e))).
Proof.
  intros Hseed Hnp Hmf. rewrite reset_unfold, Hseed.
  unfold setup_labyrinth. run. know Hnp. by know Hmf.
Qed.

(** X18. After any number of [reset()] calls on an object whose seed is
    [s], whatever each call gave back, the seed is [s] plus the number
    of calls, and the bounds, the reward table and [py_random] are
    unchanged: [py_random] is never drawn from. *)
Theorem resets_count_the_seed (n : nat) (e : Labyrinth) (s : Z) :
  seed e = Some s →
  seed (resets n e) = Some (s + Z.of_nat n) ∧
  rows (resets n e) = rows e ∧
  cols (resets n e) = cols e ∧
  reward_schema (resets n e) = reward_schema e ∧
  py_random (resets n e) = py_random e.
Proof.
  intros Hseed. induction n as [|n IH].
  - simpl. by rewrite Z.add_0_r.
  - destruct IH as (IHs & IHr & IHc & IHrs & IHpy).
    unfold resets in *. simpl.
    destruct (reset_frame None _ _ IHs) as (-> & -> & -> & -> & ->).
    repeat split; [f_equal; lia|done..].
Qed.

End LifecycleProperties.

Section RenderProperties.
Context `{Imports}.
#[local] Arguments step : simpl never.

(** ** The interactive loop *)

(** Handling a queue in two parts. *)
Lemma handle_events_app es1 es2 last kp e :
  handle_events (es1 ++ es2) last kp e =
  match handle_events es1 last kp e with
  | (Completed (l, k), e1) => handle_events es2 l k e1
  | other => other
  end.
Proof.
  revert last kp e. induction es1 as [|ev es1 IH]; intros last kp e; [done|].
  destruct ev as [|key|]; simpl; [done| |by apply IH].
  destruct key; simpl; [done | .. | by apply IH].
  all: destruct (step _ e) as [[r|err] e1]; [apply IH|done].
Qed.

(** A queue handled to its end has made the steps of its arrow keys, in
    order, and nothing else. *)
Lemma handle_events_steps es last kp e x e' :
  handle_events es last kp e = (Completed x, e') →
  e' = steps (arrow_actions es) e.
Proof.
  revert last kp e. induction es as [|ev es IH]; intros last kp e; simpl.
  - by intros [= _ <-].
  - destruct ev as [|key|]; simpl; [done| |by apply IH].
    destruct key; simpl; [done | .. | by apply IH].
    all: destruct (step _ e) as [[r|err] e1] eqn:Hstep; [|done].
    all: intros Hrest; by apply IH in Hrest.
Qed.

(** Without an arrow key among the events the three locals keep their
    values. *)
Lemma handle_events_no_arrow es last kp e l k e' :
  handle_events es last kp e = (Completed (l, k), e') →
  arrow_actions es = [] →
  l = last.
Proof.
  revert last kp e. induction es as [|ev es IH]; intros last kp e; simpl.
  - by intros [= <- _ _].
  - destruct ev as [|key|]; simpl; [done| |by apply IH].
    destruct key; simpl; [done.. | by apply IH].
Qed.

(** Whatever way the loop ends, the player is on a free cell if it was
    on one. *)
Lemma handle_events_keep_free_cell es last kp e :
  free_cell e (position (player e)) = true →
  free_cell (handle_events es last kp e).2
    (position (player (handle_events es last kp e).2)) = true.
Proof.
  revert last kp e. induction es as [|ev es IH]; intros last kp e Hfree; [done|].
  destruct ev as [|key|]; simpl; [done| |by apply IH].
  destruct key; simpl; [done | .. | by apply IH].
  - pose proof (step_keeps_free_cell UP e Hfree) as Hstep.
    destruct (step UP e) as [[r|err] e1]; [by apply IH|done].
  - pose proof (step_keeps_free_cell RIGHT e Hfree) as Hstep.
    destruct (step RIGHT e) as [[r|err] e1]; [by apply IH|done].
  - pose proof (step_keeps_free_cell DOWN e Hfree) as Hstep.
    destruct (step DOWN e) as [[r|err] e1]; [by apply IH|done].
  - pose proof (step_keeps_free_cell LEFT e Hfree) as Hstep.
    destruct (step LEFT e) as [[r|err] e1]; [by apply IH|done].
Qed.

(** [render] in human mode is the loop, with the result wrapped. *)
Lemma render_human_Completed es e r e' :
  render (Some "human") es e = (Completed r, e') →
  ∃ l k, handle_events es None false e = (Completed (l, k), e') ∧
    r = {| Rendered.state := state e';
           Rendered.reward := (λ l, l.1.1) <$> l;
           Rendered.done := (λ l, l.1.2) <$> l;
           Rendered.fourth := ∅;
           Rendered.info := (λ l, l.2) <$> l;
           Rendered.key_press := k |}.
Proof.
  unfold render. rewrite bool_decide_eq_true_2 by done.
  destruct (handle_events es None false e) as [[[l k]| |err] e1]; [|done..].
  intros [= <- <-]. eauto.
Qed.

(** X19. When [render] in human mode returns, the object has made
    exactly the steps of the arrow keys in the queue, in their order,
    and the state handed back is the one the object holds. *)
Theorem render_makes_the_arrow_steps (events : list Pygame.Event)
    (e : Labyrinth) (r : Rendered.t) (e' : Labyrinth) :
  render (Some "human") events e = (Completed r, e') →
  e' = steps (arrow_actions events) e ∧
  Rendered.state r = state e'.
Proof.
  intros Hr. apply render_human_Completed in Hr as (l & k & Hh & ->).
  split; [by eapply handle_events_steps|done].
Qed.

(** X20. [render] reports the last step only: when one more arrow key
    follows a queue that [render] handles to its end, the reward, done
    and info handed back are those of that key's step, whatever the
    steps before gave, a [done = True] included. *)
Theorem render_reports_last_step (events : list Pygame.Event)
    (key : Pygame.Key) (a : Action) (e : Labyrinth) (r1 : Rendered.t)
    (e1 : Labyrinth) (sr : StepResult) (e2 : Labyrinth) :
  render (Some "human") events e = (Completed r1, e1) →
  Pygame.key_action key = Some a →
  step a e1 = (Return sr, e2) →
  render (Some "human") (events ++ [Pygame.KEYDOWN key]) e =
    (Completed {| Rendered.state := state e2;
                  Rendered.reward := Some (reward sr);
                  Rendered.done := Some (done sr);
                  Rendered.fourth := ∅;
                  Rendered.info := Some (info sr);
                  Rendered.key_press := true |}, e2).
Proof.
  intros Hr Hkey Hstep.
  apply render_human_Completed in Hr as (l & k & Hh & _).
  unfold render. rewrite bool_decide_eq_true_2 by done.
  rewrite handle_events_app, Hh. simpl.
  destruct key; simplify_eq/=; by rewrite Hstep.
Qed.

(** X21. A queue without arrow keys leaves the object as it was, and
    [render] hands back [None] for reward, done and info. *)
Theorem render_without_arrows (events : list Pygame.Event) (e : Labyrinth)
    (r : Rendered.t) (e' : Labyrinth) :
  render (Some "human") events e = (Completed r, e') →
  arrow_actions events = [] →
  e' = e ∧
  Rendered.reward r = None ∧ Rendered.done r = None ∧ Rendered.info r = None.
Proof.
  intros Hr Hno. apply render_human_Completed in Hr as (l & k & Hh & ->).
  pose proof (handle_events_steps _ _ _ _ _ _ Hh) as ->.
  apply handle_events_no_arrow in Hh as ->; [|done].
  by rewrite Hno.
Qed.

(** X22. A QUIT event or the escape key ends the program where it
    stands in the queue: the steps of the keys before it are made, the
    events after it are never looked at. *)
Theorem render_quit_stops (events rest : list Pygame.Event) (ev : Pygame.Event)
    (e : Labyrinth) (r : Rendered.t) (e1 : Labyrinth) :
  ev = Pygame.QUIT ∨ ev = Pygame.KEYDOWN Pygame.K_ESCAPE →
  render (Some "human") events e = (Completed r, e1) →
  render (Some "human") (events ++ ev :: rest) e = (SystemExit, e1).
Proof.
  intros Hev Hr. apply render_human_Completed in Hr as (l & k & Hh & _).
  unfold render. rewrite bool_decide_eq_true_2 by done.
  rewrite handle_events_app, Hh. by destruct Hev as [-> | ->].
Qed.

(** X23. However [render] ends, in whatever mode, a player on a free
    cell is still on a free cell. *)
Theorem render_keeps_free_cell (mode : option string)
    (events : list Pygame.Event) (e : Labyrinth) :
  free_cell e (position (player e)) = true →
  free_cell (render mode events e).2
    (position (player (render mode events e).2)) = true.
Proof.
  intros Hfree. unfold render. case_bool_decide; [|done].
  pose proof (handle_events_keep_free_cell events None false e Hfree) as Hh.
  by destruct (handle_events events None false e) as [[[l k]| |err] e1].
Qed.

End RenderProperties.

(** ** The corridor, run further *)

Section CorridorMoreRuns.
#[local] Existing Instance corridor_imports.

(** X1 at the move onto the target. *)
Lemma step_done_only_on_target_witness :
  ∃ m, maze env2 = Some m ∧
    position (player env2) = target_position m ∧
    info {| observation := [ [3; 4; 0]; [0; 2; 0]; [0; 1; 1] ];
            reward := PyInt 10; done := true; truncated := false;
            info := {[ "info" := "Reached the target!" ]} |}
      = {[ "info" := "Reached the target!" ]} ∧
    observation {| observation := [ [3; 4; 0]; [0; 2; 0]; [0; 1; 1] ];
                   reward := PyInt 10; done := true; truncated := false;
                   info := {[ "info" := "Reached the target!" ]} |}
      = state env1 ∧
    state env2 = state env1.
Proof.
  apply (step_done_only_on_target DOWN env1
           {| observation := [ [3; 4; 0]; [0; 2; 0]; [0; 1; 1] ];
              reward := PyInt 10; done := true; truncated := false;
              info := {[ "info" := "Reached the target!" ]} |} env2);
    [vm_compute; reflexivity | reflexivity].
Defined.

(** X2 at a step out of the grid. *)
Lemma step_reward_from_table_witness :
  truncated {| observation := state env0; reward := PyInt (-1); done := false;
               truncated := false; info := {[ "info" := "Invalid move!" ]} |}
    = false ∧
  ∃ rs, reward_schema env0 = Some rs ∧
    (rs !! "neutral_reward" = Some (PyInt (-1)) ∨
     rs !! "wall_collision_reward" = Some (PyInt (-1)) ∨
     rs !! "target_reached_reward" = Some (PyInt (-1))).
Proof.
  apply (step_reward_from_table UP env0
           {| observation := state env0; reward := PyInt (-1); done := false;
              truncated := false; info := {[ "info" := "Invalid move!" ]} |} env0).
  vm_compute. reflexivity.
Defined.

(** X3 at the same step. *)
Lemma step_invalid_info_unchanged_witness :
  env0 = env0 ∧
  state env0 = state env0 ∧
  false = false ∧
  free_cell env0 (potential_next_position (player env0) UP) = false.
Proof.
  apply (step_invalid_info_unchanged UP env0
           {| observation := state env0; reward := PyInt (-1); done := false;
              truncated := false; info := {[ "info" := "Invalid move!" ]} |} env0);
    [vm_compute; reflexivity | reflexivity].
Defined.

(** X5 above the target, with the entry missing. *)
Lemma step_missing_target_reward_witness :
  step DOWN env1_no_target_key =
    (Raise KeyError, set_player_position (1, 1) env1_no_target_key).
Proof.
  apply (step_missing_target_reward env1_no_target_key DOWN (corridor 42)
           (delete "target_reached_reward" default_reward_schema)
           (PyFloat (-0.01)));
    [reflexivity | reflexivity | vm_compute; reflexivity
    | vm_compute; reflexivity | vm_compute; reflexivity | reflexivity].
Defined.

(** X6 on a grid of one row under bounds of three: stepping down from
    (0, 1) is inside the bounds and off the grid. *)
Lemma is_valid_move_raises_iff_witness :
  is_valid_move {| position := (0, 1) |} DOWN env_short =
    (Raise IndexError, env_short).
Proof.
  apply (proj2 (is_valid_move_raises_iff {| position := (0, 1) |} DOWN env_short
                  {| grid := [ [1; 1; 0] ]; start_position := (0, 0);
                     target_position := (0, 1) |} eq_refl)).
  split; reflexivity.
Defined.

(** X7 at the start of the corridor, stepping down into the wall. *)
Lemma is_valid_move_total_witness :
  is_valid_move {| position := (0, 0) |} DOWN env0 =
    (Return (free_cell env0 (potential_next_position {| position := (0, 0) |} DOWN)),
     env0).
Proof.
  apply (is_valid_move_total {| position := (0, 0) |} DOWN env0 (corridor 42));
    [reflexivity | split; [by vm_compute | split; [by vm_compute | reflexivity]]].
Defined.

(** X8 at the corridor's first observation. *)
Lemma build_state_matrix_shape_witness :
  shape [ [4; 1; 0]; [0; 2; 0]; [0; 1; 1] ] = shape (grid (corridor 42)) ∧
  state env0 = [ [4; 1; 0]; [0; 2; 0]; [0; 1; 1] ].
Proof.
  apply (build_state_matrix_shape env0 (corridor 42)
           [ [4; 1; 0]; [0; 2; 0]; [0; 1; 1] ] env0);
    [reflexivity | vm_compute; reflexivity].
Defined.

(** X9 at the same observation, read at (-3, -3), which is the cell
    (0, 0) the player stands on. *)
Lemma build_state_matrix_cells_witness :
  getitem [ [4; 1; 0]; [0; 2; 0]; [0; 1; 1] ] (-3, -3) =
    if decide (cell_of (grid (corridor 42)) (-3, -3) =
               cell_of (grid (corridor 42)) (position (player env0)))
    then Some PLAYER
    else if decide (cell_of (grid (corridor 42)) (-3, -3) =
                    cell_of (grid (corridor 42)) (target_position (corridor 42)))
    then Some TARGET
    else if decide (cell_of (grid (corridor 42)) (-3, -3) =
                    cell_of (grid (corridor 42)) (start_position (corridor 42)))
    then Some START
    else getitem (grid (corridor 42)) (-3, -3).
Proof.
  apply (build_state_matrix_cells env0 (corridor 42)
           [ [4; 1; 0]; [0; 2; 0]; [0; 1; 1] ] env0 (-3, -3));
    [reflexivity | vm_compute; reflexivity].
Defined.

Example wrapped_index_reads_the_player :
  getitem [ [4; 1; 0]; [0; 2; 0]; [0; 1; 1] ] (-3, -3) = Some 4.
Proof. reflexivity. Qed.

(** X10 at seed 42. *)
Lemma init_seeded_keeps_shared_generator_witness :
  (__init__ (LabyrinthArgs.defaults 3 3 None (Some 42)) 7).2 = 7.
Proof.
  apply (init_seeded_keeps_shared_generator (H:=corridor_imports)
           (LabyrinthArgs.defaults 3 3 None (Some 42)) 42 7).
  reflexivity.
Defined.

(** X11 without a seed. *)
Lemma init_unseeded_draws_once_witness :
  (__init__ (LabyrinthArgs.defaults 3 3 None None) 7).2 =
    match np_ones_times 3 3 WALL with
    | Return _ => (randint 0 1000000 7).2
    | Raise _ => 7
    end.
Proof.
  apply (init_unseeded_draws_once (H:=corridor_imports)
           (LabyrinthArgs.defaults 3 3 None None) 7).
  reflexivity.
Defined.

(** X12 at [Labyrinth(-1, 3)]. *)
Lemma init_negative_dimension_witness :
  __init__ (LabyrinthArgs.defaults (-1) 3 None None) 7 = (Raise ValueError, 7).
Proof.
  apply (init_negative_dimension (H:=corridor_imports)
           (LabyrinthArgs.defaults (-1) 3 None None) 7).
  left. by vm_compute.
Defined.

(** X13 at [Labyrinth(3, 3, seed=42)]. *)
Lemma init_first_observation_witness :
  ∃ m, maze env0 = Some m ∧
    position (player env0) = start_position m ∧
    getitem (state env0) (start_position m) = Some PLAYER ∧
    shape (state env0) = shape (grid m).
Proof.
  apply (init_first_observation (H:=corridor_imports)
           (LabyrinthArgs.defaults 3 3 None (Some 42)) 7 7 env0).
  vm_compute. reflexivity.
Defined.

(** X14 at the same construction. *)
Lemma init_seed_bookkeeping_witness :
  ∃ s, seed env0 = Some s ∧ py_random env0 = Random s ∧
    (LabyrinthArgs.seed (LabyrinthArgs.defaults 3 3 None (Some 42)) = Some s ∧ 7 = 7 ∨
     LabyrinthArgs.seed (LabyrinthArgs.defaults 3 3 None (Some 42)) = None ∧
     randint 0 1000000 7 = (Return s, 7)).
Proof.
  apply (init_seed_bookkeeping (H:=corridor_imports)
           (LabyrinthArgs.defaults 3 3 None (Some 42)) 7 7 env0).
  vm_compute. reflexivity.
Defined.

(** X15 at the first [reset()]. *)
Lemma reset_Return_witness :
  ∃ m, maze (reset None env0).2 = Some m ∧
    position (player (reset None env0).2) = start_position m ∧
    overlay m (start_position m) = Some (state (reset None env0).2) ∧
    seed (reset None env0).2 = Some (42 + 1) ∧
    rows (reset None env0).2 = rows env0 ∧
    cols (reset None env0).2 = cols env0 ∧
    reward_schema (reset None env0).2 = reward_schema env0 ∧
    py_random (reset None env0).2 = py_random env0.
Proof.
  apply (reset_Return None env0 42 () (reset None env0).2);
    [reflexivity | vm_compute; reflexivity].
Defined.

(** X17 at the start: right, then left. *)
Lemma step_there_and_back_witness :
  position (player (steps [RIGHT; LEFT] env0)) = position (player env0).
Proof.
  apply (step_there_and_back env0 RIGHT LEFT default_reward_schema
           (PyFloat (-0.01)));
    [reflexivity | vm_compute; reflexivity | vm_compute; reflexivity
    | vm_compute; reflexivity | reflexivity | reflexivity].
Defined.

(** X18 at three resets. *)
Lemma resets_count_the_seed_witness :
  seed (resets 3 env0) = Some (42 + Z.of_nat 3) ∧
  rows (resets 3 env0) = rows env0 ∧
  cols (resets 3 env0) = cols env0 ∧
  reward_schema (resets 3 env0) = reward_schema env0 ∧
  py_random (resets 3 env0) = py_random env0.
Proof.
  apply (resets_count_the_seed 3 env0 42). reflexivity.
Defined.

(** X19 at the queue right, down. *)
Lemma render_makes_the_arrow_steps_witness :
  env2 = steps (arrow_actions [Pygame.KEYDOWN Pygame.K_RIGHT;
                               Pygame.KEYDOWN Pygame.K_DOWN]) env0 ∧
  Rendered.state
    {| Rendered.state := [ [3; 4; 0]; [0; 2; 0]; [0; 1; 1] ];
       Rendered.reward := Some (PyInt 10);
       Rendered.done := Some true;
       Rendered.fourth := ∅;
       Rendered.info := Some {[ "info" := "Reached the target!" ]};
       Rendered.key_press := true |} = state env2.
Proof.
  apply (render_makes_the_arrow_steps
           [Pygame.KEYDOWN Pygame.K_RIGHT; Pygame.KEYDOWN Pygame.K_DOWN] env0).
  vm_compute. reflexivity.
Defined.

(** X20: one more step down after the arrival; the [done = True] of the
    arrival is not what comes back. *)
Lemma render_reports_last_step_witness :
  render (Some "human")
    ([Pygame.KEYDOWN Pygame.K_RIGHT; Pygame.KEYDOWN Pygame.K_DOWN]
       ++ [Pygame.KEYDOWN Pygame.K_DOWN]) env0 =
    (Completed
       {| Rendered.state := state (step DOWN env2).2;
          Rendered.reward := Some (reward
            {| observation := [ [3; 1; 0]; [0; 2; 0]; [0; 4; 1] ];
               reward := PyFloat (-0.01); done := false; truncated := false;
               info := ∅ |});
          Rendered.done := Some (done
            {| observation := [ [3; 1; 0]; [0; 2; 0]; [0; 4; 1] ];
               reward := PyFloat (-0.01); done := false; truncated := false;
               info := ∅ |});
          Rendered.fourth := ∅;
          Rendered.info := Some (info
            {| observation := [ [3; 1; 0]; [0; 2; 0]; [0; 4; 1] ];
               reward := PyFloat (-0.01); done := false; truncated := false;
               info := ∅ |});
          Rendered.key_press := true |},
     (step DOWN env2).2).
Proof.
  apply (render_reports_last_step
           [Pygame.KEYDOWN Pygame.K_RIGHT; Pygame.KEYDOWN Pygame.K_DOWN]
           Pygame.K_DOWN DOWN env0
           {| Rendered.state := [ [3; 4; 0]; [0; 2; 0]; [0; 1; 1] ];
              Rendered.reward := Some (PyInt 10);
              Rendered.done := Some true;
              Rendered.fourth := ∅;
              Rendered.info := Some {[ "info" := "Reached the target!" ]};
              Rendered.key_press := true |}
           env2);
    [vm_compute; reflexivity | reflexivity | vm_compute; reflexivity].
Defined.

(** X21 at a queue of a mouse move and a letter key. *)
Lemma render_without_arrows_witness :
  env0 = env0 ∧
  Rendered.reward
    {| Rendered.state := state env0; Rendered.reward := None;
       Rendered.done := None; Rendered.fourth := ∅; Rendered.info := None;
       Rendered.key_press := true |} = None ∧
  Rendered.done
    {| Rendered.state := state env0; Rendered.reward := None;
       Rendered.done := None; Rendered.fourth := ∅; Rendered.info := None;
       Rendered.key_press := true |} = None ∧
  Rendered.info
    {| Rendered.state := state env0; Rendered.reward := None;
       Rendered.done := None; Rendered.fourth := ∅; Rendered.info := None;
       Rendered.key_press := true |} = None.
Proof.
  apply (render_without_arrows
           [Pygame.OTHER; Pygame.KEYDOWN Pygame.K_OTHER] env0);
    [vm_compute; reflexivity | reflexivity].
Defined.

(** X22: right, then QUIT, then a key that is never read. *)
Lemma render_quit_stops_witness :
  render (Some "human")
    ([Pygame.KEYDOWN Pygame.K_RIGHT]
       ++ Pygame.QUIT :: [Pygame.KEYDOWN Pygame.K_DOWN]) env0 =
    (SystemExit, env1).
Proof.
  apply (render_quit_stops [Pygame.KEYDOWN Pygame.K_RIGHT]
           [Pygame.KEYDOWN Pygame.K_DOWN] Pygame.QUIT env0
           {| Rendered.state := [ [3; 4; 0]; [0; 2; 0]; [0; 1; 1] ];
              Rendered.reward := Some (PyFloat (-0.01));
              Rendered.done := Some false;
              Rendered.fourth := ∅;
              Rendered.info := Some ∅;
              Rendered.key_press := true |}
           env1);
    [by left | vm_compute; reflexivity].
Defined.

(** X23 at a queue that bumps into the wall and walks on. *)
Lemma render_keeps_free_cell_witness :
  free_cell
    (render (Some "human")
       [Pygame.KEYDOWN Pygame.K_DOWN; Pygame.KEYDOWN Pygame.K_RIGHT] env0).2
    (position (player
       (render (Some "human")
          [Pygame.KEYDOWN Pygame.K_DOWN; Pygame.KEYDOWN Pygame.K_RIGHT] env0).2))
    = true.
Proof.
  apply (render_keeps_free_cell (Some "human")
           [Pygame.KEYDOWN Pygame.K_DOWN; Pygame.KEYDOWN Pygame.K_RIGHT] env0).
  reflexivity.
Defined.

End CorridorMoreRuns.

Section OneMazeRuns.
#[local] Existing Instance one_maze_imports.

(** X16 at the first [reset()] on a factory that has run dry: the seed
    is 43 and the old maze, player and observation are still there. *)
Lemma reset_factory_failure_witness :
  reset None env_dry =
    (Raise GenerationError,
     set_maze_factory (42, 1%nat) (set_np_random 44 (set_seed (Some (42 + 1)) env_dry))).
Proof.
  apply (reset_factory_failure None env_dry 42 43 44 GenerationError (42, 1%nat));
    reflexivity.
Defined.

Example construction_over_the_dry_factory :
  __init__ (LabyrinthArgs.defaults 3 3 None (Some 42)) 7 = (Return env_dry, 7).
Proof. vm_compute. reflexivity. Qed.

End OneMazeRuns.
